(** * Webhook-to-spreadsheet bridge ([index.js])

    A shallow embedding of the Express handler [POST /webhook], of
    [addToCalendar] and of [getSheetId], together with the properties of
    the bridge that follow from the code.

    JavaScript values are an inductive type with the language's
    truthiness; the asynchronous functions are computations in a state
    and exception monad over a [World] that holds the spreadsheet, the
    clock, the console and the record of remote calls.  The start of
    the server and the health check [GET /] are not modelled; of
    [JSON.stringify] only whether it returns is. *)

From Stdlib Require Import ZArith List String Ascii Bool Lia.
From Stdlib Require Import SpecFloat.
From Stdlib Require Import DecimalString.
Import ListNotations.

Set Warnings "-register-all".

Local Open Scope string_scope.
Local Open Scope Z_scope.

(** ** JavaScript values *)

(** A parsed JSON document, as [body-parser] hands it to the handler,
    plus [undefined] for what property reads return on a missing key.
    Numbers are IEEE doubles in the Standard Library's [spec_float].
    An object lists its own properties, each key once. *)
Inductive JsValue : Type :=
| JUndefined
| JNull
| JBool (b : bool)
| JNum (x : spec_float)
| JStr (s : string)
| JArr (items : list JsValue)
| JObj (fields : list (string * JsValue)).

Definition string_empty (s : string) : bool :=
  match s with
  | EmptyString => true
  | String _ _ => false
  end.

(** ToBoolean: [undefined], [null], [false], [+0], [-0], [NaN] and the
    empty string are falsy, everything else is truthy. *)
Definition truthy (v : JsValue) : bool :=
  match v with
  | JUndefined | JNull => false
  | JBool b => b
  | JNum (S754_zero _) | JNum S754_nan => false
  | JNum _ => true
  | JStr s => negb (string_empty s)
  | JArr _ | JObj _ => true
  end.

(** [a || b] *)
Definition js_or (a b : JsValue) : JsValue := if truthy a then a else b.

(** [v === 'lit'] for a string literal: no coercion takes place. *)
Definition strict_eq_string (v : JsValue) (lit : string) : bool :=
  match v with
  | JStr s => String.eqb s lit
  | _ => false
  end.

(** An integer as a JavaScript number. *)
Definition num_of_Z (z : Z) : spec_float :=
  match z with
  | Z0 => S754_zero false
  | Zpos p => S754_finite false p 0
  | Zneg p => S754_finite true p 0
  end.

Fixpoint lookup_field (k : string) (fields : list (string * JsValue)) : JsValue :=
  match fields with
  | [] => JUndefined
  | (k', v) :: rest => if String.eqb k' k then v else lookup_field k rest
  end.

(** [v.k] for the keys the program reads ([event], [data], [name],
    [email], [date], [time], [description]), none of which is found
    on a prototype: the own property of an object, [undefined] on an
    array or a primitive.  Reading a property of [undefined] or [null]
    is the [TypeError] of [get_prop] below. *)
Definition prop (v : JsValue) (k : string) : JsValue :=
  match v with
  | JObj fields => lookup_field k fields
  | _ => JUndefined
  end.

Definition nullish (v : JsValue) : bool :=
  match v with
  | JUndefined | JNull => true
  | _ => false
  end.

(** How deep arrays and objects are nested in a value: 0 for a
    primitive, 1 for an array or object of primitives. *)
Fixpoint nesting (v : JsValue) : nat :=
  match v with
  | JArr items =>
      S ((fix deepest (l : list JsValue) : nat :=
            match l with
            | [] => O
            | x :: rest => Nat.max (nesting x) (deepest rest)
            end) items)
  | JObj fields =>
      S ((fix deepest (l : list (string * JsValue)) : nat :=
            match l with
            | [] => O
            | (_, x) :: rest => Nat.max (nesting x) (deepest rest)
            end) fields)
  | _ => O
  end.

(** ** Errors, results and the world *)

(** A thrown [Error]: its [message] and, on the errors of the
    spreadsheet client, the messages of the entries of [errors]. *)
Record JsError : Type := mkError {
  message : string;
  errors : option (list string)
}.

(** [new Error(msg)] *)
Definition new_Error (msg : string) : JsError :=
  {| message := msg; errors := None |}.

Inductive Result (A : Type) : Type :=
| Ok (a : A)
| Throw (e : JsError).

Arguments Ok {A} a.
Arguments Throw {A} e.

(** What a cell holds: nothing, or what the service made of the value
    sent for it under the input option of the request.  With
    [USER_ENTERED] the service reads a string as a user typing it
    would be read (a number, a date, a formula); that reading is the
    service's and is not modelled further. *)
Inductive Cell : Type :=
| blank
| entered (valueInputOption : string) (value : JsValue).

(** One tab of the spreadsheet: identifier, title and the rows in use,
    first row first. *)
Record Sheet : Type := mkSheet {
  sheetId : Z;
  title : string;
  rows : list (list Cell)
}.

(** The requests the program sends to the spreadsheet service. *)
Inductive AddSheet : Type :=
| addSheet (sheet_title : string) (rowCount columnCount : Z).

Inductive Request : Type :=
| SpreadsheetsGet (spreadsheetId : option string) (fields : string)
| SpreadsheetsBatchUpdate (spreadsheetId : option string) (requests : list AddSheet)
| ValuesUpdate (spreadsheetId : option string) (range valueInputOption : string)
    (values : list (list JsValue))
| ValuesAppend (spreadsheetId : option string)
    (range valueInputOption insertDataOption : string)
    (values : list (list JsValue)).

(** A remote call as it happened: when it was issued, what was sent and
    the error it raised, if any. *)
Record Call : Type := mkCall {
  issued_at : Z;
  request : Request;
  raised : option JsError
}.

(** What the environment does to the next remote call: how long the
    call takes (milliseconds) and whether it fails before reaching the
    spreadsheet (network, credentials, quota). *)
Record Outcome : Type := mkOutcome {
  elapsed : N;
  failure : option JsError
}.

Definition prompt_success : Outcome := {| elapsed := 0%N; failure := None |}.

(** [response.data.updates] of an append. *)
Record Updates : Type := mkUpdates {
  updatedRange : string;
  updatedRows : Z;
  updatedColumns : Z;
  updatedCells : Z
}.

(** Console output, one constructor per call site shape. *)
Inductive LogEntry : Type :=
| log_incoming (body : JsValue)
| log_line (text : string)
| log_event_added (updates : Updates)
| error_line (label text : string)
| error_stack (label : string) (e : JsError).

Record World : Type := mkWorld {
  sheets : list Sheet;
  clock : Z;
  oracle : list Outcome;
  calls : list Call;
  console : list LogEntry
}.

(** ** The monad of asynchronous functions *)

Definition M (A : Type) : Type := World -> Result A * World.

Definition ret {A} (a : A) : M A := fun w => (Ok a, w).

Definition throw {A} (e : JsError) : M A := fun w => (Throw e, w).

Definition bind {A B} (m : M A) (k : A -> M B) : M B :=
  fun w =>
    match m w with
    | (Ok a, w') => k a w'
    | (Throw e, w') => (Throw e, w')
    end.

(** [try { body } catch (error) { handler }]: the effects of [body] up
    to the throw stay. *)
Definition try_catch {A} (body : M A) (handler : JsError -> M A) : M A :=
  fun w =>
    match body w with
    | (Ok a, w') => (Ok a, w')
    | (Throw e, w') => handler e w'
    end.

Declare Scope js_scope.
Delimit Scope js_scope with js.
Notation "x <- m ;; k" := (bind m (fun x => k))
  (at level 61, m at next level, right associativity) : js_scope.
Notation "m ;;; k" := (bind m (fun _ => k))
  (at level 61, right associativity) : js_scope.
Local Open Scope js_scope.

Definition lift {A} (r : Result A) : M A := fun w => (r, w).

(** The world after [console.log] or [console.error] of [entry]. *)
Definition logged (w : World) (entry : LogEntry) : World :=
  {| sheets := sheets w; clock := clock w; oracle := oracle w;
     calls := calls w; console := console w ++ [entry] |}.

Definition print (entry : LogEntry) : M unit := fun w => (Ok tt, logged w entry).

(** [new Date()] *)
Definition Date_now : M Z := fun w => (Ok (clock w), w).

Fixpoint for_each {A} (f : A -> M unit) (l : list A) : M unit :=
  match l with
  | [] => ret tt
  | x :: rest => f x ;;; for_each f rest
  end.

(** The messages V8 gives to the [TypeError] of a property read on
    [undefined] or [null]. *)
Definition type_name (v : JsValue) : string :=
  match v with
  | JNull => "null"
  | _ => "undefined"
  end.

Definition cannot_read (v : JsValue) (k : string) : JsError :=
  new_Error ("Cannot read properties of " ++ type_name v
             ++ " (reading '" ++ k ++ "')").

Definition cannot_destructure (v : JsValue) (k src : string) : JsError :=
  new_Error ("Cannot destructure property '" ++ k ++ "' of '" ++ src
             ++ "' as it is " ++ type_name v ++ ".").

(** The [RangeError] of a recursion deeper than the stack. *)
Definition stack_overflow : JsError :=
  new_Error "Maximum call stack size exceeded".

(** [v.k] *)
Definition get_prop (v : JsValue) (k : string) : Result JsValue :=
  if nullish v then Throw (cannot_read v k) else Ok (prop v k).

(** [const { k } = v] where [v] is written [src] in the source. *)
Definition destructure (v : JsValue) (k src : string) : Result JsValue :=
  if nullish v then Throw (cannot_destructure v k src) else Ok (prop v k).

(** ** Dates: [new Date().toISOString().split('T')[0]]

    The abstract operations of ECMAScript on time values, under
    their names there.  [YearFromTime], [MonthFromTime] and
    [DateFromTime] are computed by [civil]; these are the year, month
    and day that [DayFromYear] and the table of months define. *)

Module JsDate.

Definition msPerDay : Z := 86400000.

(** Day number and time within the day of a time value
    (milliseconds since 1970-01-01T00:00:00Z). *)
Definition Day (t : Z) : Z := t / msPerDay.
Definition TimeWithinDay (t : Z) : Z := t mod msPerDay.

(** Number of the first day of year [y]. *)
Definition DayFromYear (y : Z) : Z :=
  365 * (y - 1970) + (y - 1969) / 4 - (y - 1901) / 100 + (y - 1601) / 400.

(** Year, month (1 to 12) and day of the month (1 to 31) of a day
    number in the proleptic Gregorian calendar, counting eras of 400
    years from 0000-03-01. *)
Definition civil (day : Z) : Z * Z * Z :=
  let z := day + 719468 in
  let era := z / 146097 in
  let doe := z mod 146097 in
  let yoe := (doe - doe / 1460 + doe / 36524 - doe / 146096) / 365 in
  let doy := doe - (365 * yoe + yoe / 4 - yoe / 100) in
  let mp := (5 * doy + 2) / 153 in
  let d := doy - (153 * mp + 2) / 5 + 1 in
  let m := if mp <? 10 then mp + 3 else mp - 9 in
  let y := yoe + era * 400 + (if m <=? 2 then 1 else 0) in
  (y, m, d).

Definition YearFromTime (t : Z) : Z := fst (fst (civil (Day t))).
Definition MonthFromTime (t : Z) : Z := snd (fst (civil (Day t))) - 1.
Definition DateFromTime (t : Z) : Z := snd (civil (Day t)).
Definition HourFromTime (t : Z) : Z := TimeWithinDay t / 3600000.
Definition MinFromTime (t : Z) : Z := (TimeWithinDay t / 60000) mod 60.
Definition SecFromTime (t : Z) : Z := (TimeWithinDay t / 1000) mod 60.
Definition msFromTime (t : Z) : Z := TimeWithinDay t mod 1000.

Definition digit (d : Z) : ascii := ascii_of_nat (48 + Z.to_nat d).

(** The last [width] decimal digits of [n], zero padded. *)
Fixpoint pad (width : nat) (n : Z) : string :=
  match width with
  | O => EmptyString
  | S w => pad w (n / 10) ++ String (digit (n mod 10)) EmptyString
  end.

(** Four digits for the years 0 to 9999, otherwise a sign and six
    digits. *)
Definition year_string (y : Z) : string :=
  if (0 <=? y) && (y <=? 9999) then pad 4 y
  else (if y <? 0 then "-" else "+") ++ pad 6 (Z.abs y).

Definition date_string (t : Z) : string :=
  year_string (YearFromTime t) ++ "-" ++ pad 2 (MonthFromTime t + 1)
    ++ "-" ++ pad 2 (DateFromTime t).

Definition time_string (t : Z) : string :=
  pad 2 (HourFromTime t) ++ ":" ++ pad 2 (MinFromTime t) ++ ":"
    ++ pad 2 (SecFromTime t) ++ "." ++ pad 3 (msFromTime t) ++ "Z".

(** [Date.prototype.toISOString] on the time value [t]. *)
Definition toISOString (t : Z) : string :=
  date_string t ++ "T" ++ time_string t.

(** [s.split(c)[0]] for a one character separator: what precedes the
    first [c], all of [s] when there is none. *)
Fixpoint split_head (c : ascii) (s : string) : string :=
  match s with
  | EmptyString => EmptyString
  | String a rest => if Ascii.eqb a c then EmptyString
                     else String a (split_head c rest)
  end.

(** 1 in a leap year, 0 otherwise. *)
Definition InLeapYear (y : Z) : Z :=
  if (y mod 4 =? 0) && (negb (y mod 100 =? 0) || (y mod 400 =? 0)) then 1 else 0.

(** Days of the year before month [m] (1 to 12); for 13, the days of
    the year. *)
Definition DaysBeforeMonth (m leap : Z) : Z :=
  match m with
  | 1 => 0
  | 2 => 31
  | 3 => 59 + leap
  | 4 => 90 + leap
  | 5 => 120 + leap
  | 6 => 151 + leap
  | 7 => 181 + leap
  | 8 => 212 + leap
  | 9 => 243 + leap
  | 10 => 273 + leap
  | 11 => 304 + leap
  | 12 => 334 + leap
  | _ => 365 + leap
  end.

(** Whether the character [c] occurs in [s]. *)
Fixpoint occurs (c : ascii) (s : string) : bool :=
  match s with
  | EmptyString => false
  | String a rest => Ascii.eqb a c || occurs c rest
  end.

End JsDate.

(** ** The spreadsheet service

    The remote service (the [googleapis] client and the spreadsheet
    behind it) is an external collaborator of the bridge, not code of
    it.  It is modelled by the four operations the bridge consumes:
    metadata read, batched add-sheet, range write and range append.
    Adding a sheet whose title is taken is the duplicate-name error;
    a range on a title that does not exist is rejected.  The values
    of a row are sent as JSON: the service takes strings, booleans
    and numbers, rejects arrays and objects, and leaves a cell as it
    is on [null], which is what [undefined] and the numbers that are
    not finite are sent as.  A cell written holds
    [entered option value]: what the service makes of the value
    sent, under the input option sent with it. *)

Module Service.

Record Properties : Type := mkProperties {
  properties_sheetId : Z;
  properties_title : string
}.

Definition has_title (t : string) (s : Sheet) : bool := String.eqb (title s) t.

(** The sheet an A1 range [Title!cells] lies in. *)
Definition in_range (cells range : string) (s : Sheet) : bool :=
  String.eqb (title s ++ "!" ++ cells) range.

Definition quote : string := String (ascii_of_nat 34) EmptyString.

Definition duplicate_title (t : string) : JsError :=
  let msg := "Invalid requests[0].addSheet: A sheet with the name " ++ quote
             ++ t ++ quote ++ " already exists. Please enter another name." in
  {| message := msg; errors := Some [msg] |}.

Definition unable_to_parse (range : string) : JsError :=
  let msg := "Unable to parse range: " ++ range in
  {| message := msg; errors := Some [msg] |}.

(** Identifier given to a new sheet: one not in use, never 0. *)
Definition fresh_sheetId (ss : list Sheet) : Z :=
  1 + fold_right Z.max 0 (map sheetId ss).

(** [spreadsheets.get] with [fields: 'sheets(properties(sheetId,title))'] *)
Definition get (ss : list Sheet) : Result (list Properties * list Sheet) :=
  Ok (map (fun s => mkProperties (sheetId s) (title s)) ss, ss).

(** [spreadsheets.batchUpdate]: all the requests or none; the reply
    to each [addSheet] is the identifier of the new sheet. *)
Fixpoint batchUpdate (reqs : list AddSheet) (ss : list Sheet)
  : Result (list Z * list Sheet) :=
  match reqs with
  | [] => Ok ([], ss)
  | addSheet t _ _ :: rest =>
      if existsb (has_title t) ss then Throw (duplicate_title t)
      else
        let id := fresh_sheetId ss in
        match batchUpdate rest (ss ++ [mkSheet id t []]) with
        | Ok (ids, ss') => Ok (id :: ids, ss')
        | Throw e => Throw e
        end
  end.

(** Apply [f] to the first sheet satisfying [p]. *)
Fixpoint modify_first (p : Sheet -> bool) (f : Sheet -> Sheet) (ss : list Sheet)
  : option (list Sheet) :=
  match ss with
  | [] => None
  | s :: rest =>
      if p s then Some (f s :: rest)
      else option_map (cons s) (modify_first p f rest)
  end.

(** What [JSON.stringify] sends as [null]. *)
Definition null_on_wire (v : JsValue) : bool :=
  match v with
  | JUndefined | JNull => true
  | JNum S754_nan | JNum (S754_infinity _) => true
  | _ => false
  end.

(** The values a cell can be given. *)
Definition scalar (v : JsValue) : bool :=
  match v with
  | JArr _ | JObj _ => false
  | _ => true
  end.

Definition accepted (values : list (list JsValue)) : bool :=
  forallb (forallb scalar) values.

Definition invalid_values : JsError :=
  let msg := "Invalid values" in
  {| message := msg; errors := Some [msg] |}.

(** The cell that held [old], after [v] is sent for it. *)
Definition cell (option : string) (old : Cell) (v : JsValue) : Cell :=
  if null_on_wire v then old else entered option v.

(** The values of a row written over the cells of a row, from the
    first column on. *)
Fixpoint overlay_row (option : string) (vs : list JsValue) (old : list Cell)
  : list Cell :=
  match vs with
  | [] => old
  | v :: rest => cell option (hd blank old) v :: overlay_row option rest (tl old)
  end.

(** Rows of values written over rows of cells, from the first row on. *)
Fixpoint overlay (option : string) (values : list (list JsValue))
    (old : list (list Cell)) : list (list Cell) :=
  match values with
  | [] => old
  | vs :: rest => overlay_row option vs (hd [] old) :: overlay option rest (tl old)
  end.

Definition write_rows (option : string) (values : list (list JsValue)) (s : Sheet)
  : Sheet :=
  mkSheet (sheetId s) (title s) (overlay option values (rows s)).

Definition append_rows (option : string) (values : list (list JsValue)) (s : Sheet)
  : Sheet :=
  mkSheet (sheetId s) (title s) (rows s ++ map (map (cell option blank)) values).

(** [spreadsheets.values.update] on [Title!A1:E1]: the given rows
    are written over the rows from the first one on. *)
Definition update (range option : string) (values : list (list JsValue))
    (ss : list Sheet) : Result (unit * list Sheet) :=
  if accepted values then
    match modify_first (in_range "A1:E1" range) (write_rows option values) ss with
    | Some ss' => Ok (tt, ss')
    | None => Throw (unable_to_parse range)
    end
  else Throw invalid_values.

Definition decimal (n : nat) : string := NilEmpty.string_of_uint (Nat.to_uint n).

Definition updates_of (s : Sheet) (values : list (list JsValue)) : Updates :=
  let first := S (List.length (rows s)) in
  let last := (List.length (rows s) + List.length values)%nat in
  {| updatedRange := title s ++ "!A" ++ decimal first ++ ":E" ++ decimal last;
     updatedRows := Z.of_nat (List.length values);
     updatedColumns := Z.of_nat (fold_right Nat.max O (map (@List.length JsValue) values));
     updatedCells := Z.of_nat (List.length (List.concat values)) |}.

(** [spreadsheets.values.append] on [Title!A:E] with [INSERT_ROWS]:
    the given rows are added after the last row in use. *)
Definition append (range option : string) (values : list (list JsValue))
    (ss : list Sheet) : Result (Updates * list Sheet) :=
  if accepted values then
    match find (in_range "A:E" range) ss with
    | Some s =>
        match modify_first (in_range "A:E" range) (append_rows option values) ss with
        | Some ss' => Ok (updates_of s values, ss')
        | None => Throw (unable_to_parse range)
        end
    | None => Throw (unable_to_parse range)
    end
  else Throw invalid_values.

End Service.

Definition next_outcome (os : list Outcome) : Outcome :=
  match os with
  | [] => prompt_success
  | o :: _ => o
  end.

(** The world after a remote call: the call is recorded with the time
    it was issued and the error it raised, and the clock moves by the
    time the call takes. *)
Definition after_call (w : World) (req : Request) (ss : list Sheet)
    (err : option JsError) : World :=
  {| sheets := ss;
     clock := clock w + Z.of_N (elapsed (next_outcome (oracle w)));
     oracle := tl (oracle w);
     calls := calls w ++ [mkCall (clock w) req err];
     console := console w |}.

(** A remote call.  It fails when the environment makes it fail or
    when the service rejects it; a call that fails leaves the
    spreadsheet as it was. *)
Definition remote {A} (req : Request)
    (service : list Sheet -> Result (A * list Sheet)) : M A :=
  fun w =>
    match failure (next_outcome (oracle w)) with
    | Some e => (Throw e, after_call w req (sheets w) (Some e))
    | None =>
        match service (sheets w) with
        | Ok (a, ss) => (Ok a, after_call w req ss None)
        | Throw e => (Throw e, after_call w req (sheets w) (Some e))
        end
    end.

(** ** The program *)

(** [process.env]: a variable is a string or is not set. *)
Record Env : Type := mkEnv {
  env_SPREADSHEET_ID : option string;
  env_SHEET_NAME : option string
}.

(** [res.status(code).json(body)] *)
Record Response : Type := mkResponse {
  status : Z;
  body : JsValue
}.

Definition header_row : list JsValue :=
  [JStr "Date"; JStr "Time"; JStr "Name"; JStr "Email"; JStr "Description"].

(** [new Date(t).toISOString().split('T')[0]] *)
Definition today (t : Z) : string :=
  JsDate.split_head "T" (JsDate.toISOString t).

(** The cells a row appended with [USER_ENTERED] leaves in the sheet. *)
Definition stored (row : list JsValue) : list Cell :=
  map (Service.cell "USER_ENTERED" blank) row.

Definition header_cells : list Cell := stored header_row.

Section Bridge.

Variable env : Env.

(** The depth of nesting up to which [JSON.stringify] returns in the
    running process; it depends on the size of the stack. *)
Variable max_depth : nat.

(** [const SPREADSHEET_ID = process.env.SPREADSHEET_ID;] *)
Definition SPREADSHEET_ID : option string := env_SPREADSHEET_ID env.

(** [const SHEET_NAME = process.env.SHEET_NAME || 'Calendar';] *)
Definition SHEET_NAME : string :=
  match env_SHEET_NAME env with
  | Some s => if string_empty s then "Calendar" else s
  | None => "Calendar"
  end.

Definition getSheetId (sheetName : string) : M JsValue :=
  res <- remote (SpreadsheetsGet SPREADSHEET_ID "sheets(properties(sheetId,title))")
           Service.get ;;
  match find (fun s => String.eqb (Service.properties_title s) sheetName) res with
  | Some sheet => ret (JNum (num_of_Z (Service.properties_sheetId sheet)))
  | None => ret JNull
  end.

(** [createRes.data.replies[0].addSheet.properties.sheetId] *)
Definition first_reply (replies : list Z) : Result JsValue :=
  match replies with
  | id :: _ => Ok (JNum (num_of_Z id))
  | [] => Throw (cannot_read JUndefined "addSheet")
  end.

(** The row of the append, in source order. *)
Definition build_row (eventData : JsValue) : M (list JsValue) :=
  date <- lift (get_prop eventData "date") ;;
  date_or <- (if truthy date then ret date
              else now <- Date_now ;; ret (JStr (today now))) ;;
  time <- lift (get_prop eventData "time") ;;
  name <- lift (get_prop eventData "name") ;;
  email <- lift (get_prop eventData "email") ;;
  description <- lift (get_prop eventData "description") ;;
  ret [date_or; js_or time (JStr "12:00"); name; email;
       js_or description (JStr EmptyString)].

(** The provisioner: the block run when the resolver found no sheet. *)
Definition provision : M unit :=
  print (log_line ("Creating new sheet: " ++ SHEET_NAME)) ;;;
  createRes <- remote
    (SpreadsheetsBatchUpdate SPREADSHEET_ID [addSheet SHEET_NAME 1000 10])
    (Service.batchUpdate [addSheet SHEET_NAME 1000 10]) ;;
  sheetId <- lift (first_reply createRes) ;;
  remote
    (ValuesUpdate SPREADSHEET_ID (SHEET_NAME ++ "!A1:E1") "USER_ENTERED"
       [header_row])
    (Service.update (SHEET_NAME ++ "!A1:E1") "USER_ENTERED" [header_row]).

(** Step 1 of the [try] block: verify the sheet exists or create it. *)
Definition ensure_sheet : M unit :=
  sheetId <- getSheetId SHEET_NAME ;;
  if negb (truthy sheetId) then provision else ret tt.

(** Step 2 of the [try] block: append the row. *)
Definition append_data (eventData : JsValue) : M Updates :=
  row <- build_row eventData ;;
  response <- remote
    (ValuesAppend SPREADSHEET_ID (SHEET_NAME ++ "!A:E") "USER_ENTERED"
       "INSERT_ROWS" [row])
    (Service.append (SHEET_NAME ++ "!A:E") "USER_ENTERED" [row]) ;;
  print (log_event_added response) ;;;
  ret response.

(** The [try] block of [addToCalendar]. *)
Definition addToCalendar_try (eventData : JsValue) : M Updates :=
  ensure_sheet ;;; append_data eventData.

(** The [catch] block of [addToCalendar]. *)
Definition addToCalendar_catch (error : JsError) : M Updates :=
  print (error_line "Sheets API Error:" (message error)) ;;;
  (match errors error with
   | Some es => for_each (fun e => print (error_line "-" e)) es
   | None => ret tt
   end) ;;;
  throw (new_Error ("Failed to update spreadsheet: " ++ message error)).

Definition addToCalendar (eventData : JsValue) : M Updates :=
  try_catch (addToCalendar_try eventData) addToCalendar_catch.

Definition json (code : Z) (fields : list (string * JsValue)) : Response :=
  {| status := code; body := JObj fields |}.

(** [JSON.stringify(value, null, 2)], of which only whether it returns
    is modelled: it recurses on the nesting of [value] and throws a
    [RangeError] when the nesting is deeper than the stack allows. *)
Definition JSON_stringify (value : JsValue) : Result unit :=
  if (nesting value <=? max_depth)%nat then Ok tt else Throw stack_overflow.

(** [app.post('/webhook', async (req, res) => ...)] on [req.body].
    The first statement, the log of the body, is outside the [try]:
    what [JSON.stringify] throws there leaves the handler, and no
    answer is sent.  The reads of [data.name] and [data.email] have
    no effect and cannot throw, [data] being truthy, so reading both
    before the test is what [!data.name || !data.email] does. *)
Definition webhook (req_body : JsValue) : M Response :=
  lift (JSON_stringify req_body) ;;;
  print (log_incoming req_body) ;;;
  try_catch
    (event <- lift (destructure req_body "event" "req.body") ;;
     data <- lift (destructure req_body "data" "req.body") ;;
     if negb (truthy event) || negb (truthy data) then
       ret (json 400 [("error", JStr "Missing event or data")])
     else if negb (strict_eq_string event "schedule_appointment") then
       ret (json 400 [("error", JStr "Unsupported event type")])
     else
       name <- lift (get_prop data "name") ;;
       email <- lift (get_prop data "email") ;;
       if negb (truthy name) || negb (truthy email) then
         ret (json 400 [("error", JStr "Missing required fields")])
       else
         addToCalendar data ;;;
         ret (json 200 [("success", JBool true);
                        ("message", JStr "Event added to calendar")]))
    (fun error =>
       print (error_stack "Webhook Error:" error) ;;;
       ret (json 500 [("error", JStr "Internal server error");
                      ("details", JStr (message error))])).

End Bridge.

(** ** Observing a run *)

(** The rows of the first sheet titled [name]. *)
Definition sheet_rows (name : string) (ss : list Sheet)
  : option (list (list Cell)) :=
  option_map rows (find (Service.has_title name) ss).

(** The calls of [w'] issued after those of [w]. *)
Definition new_calls (w w' : World) : list Call :=
  skipn (List.length (calls w)) (calls w').

Definition is_addSheet (r : Request) : bool :=
  match r with
  | SpreadsheetsBatchUpdate _ _ => true
  | _ => false
  end.

Definition is_update (r : Request) : bool :=
  match r with
  | ValuesUpdate _ _ _ _ => true
  | _ => false
  end.

Definition is_append (r : Request) : bool :=
  match r with
  | ValuesAppend _ _ _ _ _ => true
  | _ => false
  end.

(** The status of an answer. *)
Definition status_of (r : Result Response) : option Z :=
  match r with
  | Ok a => Some (status a)
  | Throw _ => None
  end.

(** ** The answers, the requests and the row, named *)

Definition rejection (msg : string) : Response :=
  {| status := 400; body := JObj [("error", JStr msg)] |}.

Definition success_response : Response :=
  {| status := 200;
     body := JObj [("success", JBool true);
                   ("message", JStr "Event added to calendar")] |}.

Definition failure_response (details : string) : Response :=
  {| status := 500;
     body := JObj [("error", JStr "Internal server error");
                   ("details", JStr details)] |}.

Definition get_request (env : Env) : Request :=
  SpreadsheetsGet (SPREADSHEET_ID env) "sheets(properties(sheetId,title))".

Definition add_request (env : Env) : Request :=
  SpreadsheetsBatchUpdate (SPREADSHEET_ID env) [addSheet (SHEET_NAME env) 1000 10].

Definition header_request (env : Env) : Request :=
  ValuesUpdate (SPREADSHEET_ID env) (SHEET_NAME env ++ "!A1:E1") "USER_ENTERED"
    [header_row].

Definition append_request (env : Env) (row : list JsValue) : Request :=
  ValuesAppend (SPREADSHEET_ID env) (SHEET_NAME env ++ "!A:E") "USER_ENTERED"
    "INSERT_ROWS" [row].

(** The row built at time [t] from the payload [data]. *)
Definition row_of (t : Z) (data : JsValue) : list JsValue :=
  [js_or (prop data "date") (JStr (today t));
   js_or (prop data "time") (JStr "12:00");
   prop data "name";
   prop data "email";
   js_or (prop data "description") (JStr EmptyString)].

(** What the resolver answers on the sheets [ss]. *)
Definition resolved (name : string) (ss : list Sheet) : JsValue :=
  match find (Service.has_title name) ss with
  | Some s => JNum (num_of_Z (sheetId s))
  | None => JNull
  end.

(** The error [addToCalendar] throws in place of [e]. *)
Definition wrapped (e : JsError) : JsError :=
  new_Error ("Failed to update spreadsheet: " ++ message e).

Definition sub_errors (e : JsError) : list string :=
  match errors e with
  | Some es => es
  | None => []
  end.

(** The world after the [catch] block of [addToCalendar] logged [e]. *)
Definition reported (w : World) (e : JsError) : World :=
  {| sheets := sheets w; clock := clock w; oracle := oracle w; calls := calls w;
     console := console w ++ error_line "Sheets API Error:" (message e)
                               :: map (error_line "-") (sub_errors e) |}.

(** The sheet the provisioner creates, before and after the header
    is written. *)
Definition new_sheet (env : Env) (ss : list Sheet) : Sheet :=
  mkSheet (Service.fresh_sheetId ss) (SHEET_NAME env) [].

Definition headed_sheet (env : Env) (ss : list Sheet) : Sheet :=
  mkSheet (Service.fresh_sheetId ss) (SHEET_NAME env) [header_cells].

(** ** Conditions on requests, worlds and computations *)

(** A body whose log on arrival returns: [JSON.stringify] handles its
    nesting. *)
Definition loggable (depth : nat) (req_body : JsValue) : Prop :=
  (nesting req_body <= depth)%nat.

(** A string, a boolean or a finite number: a value the service takes
    for a cell and that is not sent as [null]. *)
Definition plain (v : JsValue) : bool :=
  match v with
  | JStr _ | JBool _ => true
  | JNum (S754_zero _) | JNum (S754_finite _ _ _) => true
  | _ => false
  end.

(** The fields of a payload that go to the row are plain: the name
    and the email, and each of the date, the time and the description
    that is not replaced by its default. *)
Definition plain_fields (data : JsValue) : Prop :=
  plain (prop data "name") = true
  /\ plain (prop data "email") = true
  /\ forall k, In k ["date"; "time"; "description"] ->
       truthy (prop data k) = true -> plain (prop data k) = true.

(** A payload that passes the three checks of the handler. *)
Definition valid_payload (req_body : JsValue) : Prop :=
  prop req_body "event" = JStr "schedule_appointment"
  /\ truthy (prop (prop req_body "data") "name") = true
  /\ truthy (prop (prop req_body "data") "email") = true.

(** No remote call is made to fail by the environment. *)
Definition no_failure (w : World) : Prop :=
  Forall (fun o => failure o = None) (oracle w).

(** The configured sheet is absent, or present under an identifier
    other than 0. *)
Definition sheet_absent_or_nonzero (env : Env) (w : World) : Prop :=
  forall s, find (Service.has_title (SHEET_NAME env)) (sheets w) = Some s ->
            sheetId s <> 0.

(** The rows the configured sheet holds before a request: its rows,
    or the header alone when the sheet is yet to be created. *)
Definition rows_before (env : Env) (w : World) : list (list Cell) :=
  match sheet_rows (SHEET_NAME env) (sheets w) with
  | Some rs => rs
  | None => [header_cells]
  end.

(** A computation propagates failures: it only adds to the record of
    calls, and a call that raised an error is the reason the
    computation threw, with that error. *)
Definition propagates {A} (m : M A) : Prop :=
  forall w r w', m w = (r, w') ->
    exists cs, calls w' = (calls w ++ cs)%list
      /\ forall c e, In c cs -> raised c = Some e -> r = Throw e.

(** ** The date of the specification

    What "the current UTC date formatted YYYY-MM-DD" says, read on
    the Gregorian calendar by counting days from 1 January 1970.
    This is the side of the specification: the model of the program
    uses none of it. *)

Module Gregorian.

Definition leap_year (y : Z) : bool :=
  (y mod 4 =? 0) && (negb (y mod 100 =? 0) || (y mod 400 =? 0)).

Definition days_in_year (y : Z) : Z := if leap_year y then 366 else 365.

Definition days_in_month (leap : bool) (m : Z) : Z :=
  match m with
  | 2 => if leap then 29 else 28
  | 4 | 6 | 9 | 11 => 30
  | _ => 31
  end.

(** [f first + f (first + 1) + ...], [n] terms. *)
Fixpoint total (f : Z -> Z) (first : Z) (n : nat) : Z :=
  match n with
  | O => 0
  | S k => f first + total f (first + 1) k
  end.

(** The days from 1 January 1970 to 1 January of the year [y],
    negative for the years before 1970. *)
Definition days_before_year (y : Z) : Z :=
  if 1970 <=? y then total days_in_year 1970 (Z.to_nat (y - 1970))
  else - total days_in_year y (Z.to_nat (1970 - y)).

(** The days of the year before the month [m]. *)
Definition days_before_month (leap : bool) (m : Z) : Z :=
  total (days_in_month leap) 1 (Z.to_nat (m - 1)).

(** The days from 1 January 1970 to the day [d] of the month [m] of
    the year [y]. *)
Definition day_number (y m d : Z) : Z :=
  days_before_year y + days_before_month (leap_year y) m + (d - 1).

Definition is_date (y m d : Z) : bool :=
  (1 <=? m) && (m <=? 12) && (1 <=? d) && (d <=? days_in_month (leap_year y) m).

Definition numeral (n : Z) : ascii :=
  match n with
  | 0 => "0" | 1 => "1" | 2 => "2" | 3 => "3" | 4 => "4"
  | 5 => "5" | 6 => "6" | 7 => "7" | 8 => "8" | _ => "9"
  end%char.

Definition two_digits (n : Z) : string :=
  String (numeral (n / 10)) (String (numeral (n mod 10)) EmptyString).

Definition four_digits (n : Z) : string :=
  two_digits (n / 100) ++ two_digits (n mod 100).

Definition YYYY_MM_DD (y m d : Z) : string :=
  four_digits y ++ "-" ++ two_digits m ++ "-" ++ two_digits d.

End Gregorian.

(** [s] is the UTC date of the time value [t] (milliseconds since
    1970-01-01T00:00:00Z), a date of the years 0000 to 9999, written
    YYYY-MM-DD: [t] lies within the 86400000 milliseconds of that
    day. *)
Definition utc_date (t : Z) (s : string) : Prop :=
  exists y m d,
    0 <= y <= 9999
    /\ Gregorian.is_date y m d = true
    /\ 86400000 * Gregorian.day_number y m d <= t
       < 86400000 * (Gregorian.day_number y m d + 1)
    /\ s = Gregorian.YYYY_MM_DD y m d.

(** The time values from 0000-01-01T00:00:00.000Z to
    9999-12-31T23:59:59.999Z. *)
Definition four_digit_years (t : Z) : Prop :=
  -62167219200000 <= t < 253402300800000.

(** ** Sample data *)

Definition default_env : Env :=
  {| env_SPREADSHEET_ID := Some "sheet-1"; env_SHEET_NAME := None |}.

(** A depth of nesting the process handles, for the examples. *)
Definition sample_depth : nat := 1000.

(** [n] arrays, one inside the other, around [v]. *)
Fixpoint nested (n : nat) (v : JsValue) : JsValue :=
  match n with
  | O => v
  | S k => JArr [nested k v]
  end.

(** 2025-11-03T00:00:00Z on the clock, nothing recorded yet. *)
Definition world_with (ss : list Sheet) (os : list Outcome) : World :=
  {| sheets := ss; clock := 1762128000000; oracle := os; calls := []; console := [] |}.

(** A new spreadsheet: one tab, no ["Calendar"] tab. *)
Definition empty_world : World := world_with [mkSheet 0 "Sheet1" []] [].

(** A spreadsheet whose first tab, of identifier 0, was renamed to the
    configured name. *)
Definition renamed_first_tab : World :=
  world_with [mkSheet 0 "Calendar" [header_cells]] [].

Definition jane : JsValue :=
  JObj [("event", JStr "schedule_appointment");
        ("data", JObj [("name", JStr "Jane Doe"); ("email", JStr "jane@example.com")])].

Definition cancel : JsValue :=
  JObj [("event", JStr "cancel_appointment");
        ("data", JObj [("name", JStr "X"); ("email", JStr "y@z.com")])].

Definition cancel_without_data : JsValue :=
  JObj [("event", JStr "cancel_appointment")].

Definition empty_event : JsValue :=
  JObj [("event", JStr EmptyString);
        ("data", JObj [("name", JStr "X"); ("email", JStr "y@z.com")])].

Definition empty_name : JsValue :=
  JObj [("event", JStr "schedule_appointment");
        ("data", JObj [("name", JStr EmptyString); ("email", JStr "y@z.com")])].

(** A body whose [event] is the empty string and whose [data] is
    nested one level deeper than [depth]. *)
Definition deep_empty_event (depth : nat) : JsValue :=
  JObj [("event", JStr EmptyString); ("data", nested (S depth) JNull)].

Definition falsy_optionals : JsValue :=
  JObj [("event", JStr "schedule_appointment");
        ("data", JObj [("name", JStr "Jane Doe"); ("email", JStr "jane@example.com");
                       ("date", JStr EmptyString); ("time", JNum (S754_zero false));
                       ("description", JBool false)])].

Definition invalid_credentials : JsError :=
  {| message := "invalid_grant: Invalid JWT Signature.";
     errors := Some ["Invalid JWT Signature."] |}.

Definition failing (e : JsError) : Outcome := {| elapsed := 250%N; failure := Some e |}.

Definition slow : Outcome := {| elapsed := 120%N; failure := None |}.

(** A request that supplies every field, the date not in ISO form and
    the description a number. *)
Definition dated : JsValue :=
  JObj [("event", JStr "schedule_appointment");
        ("data", JObj [("name", JStr "Jane Doe"); ("email", JStr "not an address");
                       ("date", JStr "next Tuesday"); ("time", JStr "09:30");
                       ("description", JNum (S754_finite false 7 0))])].

(** * Properties *)

(** ** Values *)

Lemma truthy_not_nullish (v : JsValue) : truthy v = true -> nullish v = false.
Proof. destruct v; simpl; congruence. Qed.

Lemma truthy_prop_object (v : JsValue) (k : string) :
  truthy (prop v k) = true -> exists fields, v = JObj fields.
Proof.
  destruct v; simpl; try discriminate.
  intros _. eexists. reflexivity.
Qed.

Lemma truthy_num_of_Z (z : Z) : truthy (JNum (num_of_Z z)) = negb (z =? 0).
Proof. destruct z; reflexivity. Qed.

Lemma strict_eq_string_true (v : JsValue) (lit : string) :
  strict_eq_string v lit = true <-> v = JStr lit.
Proof.
  destruct v; simpl; split; try discriminate.
  - intros H. apply String.eqb_eq in H. congruence.
  - intros H. injection H as ->. apply String.eqb_refl.
Qed.

Lemma js_or_falsy (a b : JsValue) : truthy a = false -> js_or a b = b.
Proof. unfold js_or. intros ->. reflexivity. Qed.

Lemma plain_scalar (v : JsValue) :
  plain v = true -> Service.scalar v = true /\ Service.null_on_wire v = false.
Proof. destruct v as [| | |f| | |]; try destruct f; simpl; intros H; auto; discriminate. Qed.

Lemma plain_js_or (a b : JsValue) :
  (truthy a = true -> plain a = true) -> plain b = true -> plain (js_or a b) = true.
Proof. unfold js_or. destruct (truthy a); auto. Qed.

(** The row of a payload whose fields are plain is taken by the
    service, and every value of it is entered. *)
Lemma row_of_plain (t : Z) (data : JsValue) :
  plain_fields data -> Forall (fun v => plain v = true) (row_of t data).
Proof.
  intros (Hn & Hm & Hk). unfold row_of.
  repeat constructor; try assumption;
    apply plain_js_or; try reflexivity; apply Hk; simpl; auto.
Qed.

Lemma plain_accepted (row : list JsValue) :
  Forall (fun v => plain v = true) row -> Service.accepted [row] = true.
Proof.
  intros H. unfold Service.accepted. cbn [forallb]. rewrite andb_true_r.
  induction H as [|v row Hv _ IH]; [reflexivity|].
  cbn [forallb]. rewrite (proj1 (plain_scalar v Hv)), IH. reflexivity.
Qed.

Lemma plain_stored (row : list JsValue) :
  Forall (fun v => plain v = true) row -> stored row = map (entered "USER_ENTERED") row.
Proof.
  intros H. unfold stored.
  induction H as [|v row Hv _ IH]; [reflexivity|].
  cbn [map]. unfold Service.cell at 1. rewrite (proj2 (plain_scalar v Hv)), IH.
  reflexivity.
Qed.

Lemma nesting_nested (n : nat) (v : JsValue) :
  nesting (nested n v) = (n + nesting v)%nat.
Proof.
  induction n as [|n IH]; [reflexivity|].
  cbn [nested nesting]. rewrite IH. lia.
Qed.

Lemma deep_empty_event_nesting (depth : nat) :
  nesting (deep_empty_event depth) = S (S depth).
Proof.
  unfold deep_empty_event. cbn [nesting].
  rewrite (nesting_nested (S depth) JNull). cbn [nesting]. lia.
Qed.

(** ** The handler, check by check *)

Section Validation.

Variable env : Env.
Variable depth : nat.

Lemma nesting_nullish (v : JsValue) : nullish v = true -> nesting v = O.
Proof. destruct v; simpl; congruence. Qed.

Lemma JSON_stringify_ok (v : JsValue) :
  loggable depth v -> JSON_stringify depth v = Ok tt.
Proof.
  unfold loggable, JSON_stringify. intros H.
  destruct (Nat.leb_spec (nesting v) depth) as [_|G]; [reflexivity | lia].
Qed.

Lemma JSON_stringify_throws (v : JsValue) :
  ~ loggable depth v -> JSON_stringify depth v = Throw stack_overflow.
Proof.
  unfold loggable, JSON_stringify. intros H.
  destruct (Nat.leb_spec (nesting v) depth) as [G|_]; [contradiction | reflexivity].
Qed.

Lemma loggable_dec (v : JsValue) : {loggable depth v} + {~ loggable depth v}.
Proof. unfold loggable. destruct (le_dec (nesting v) depth); [left | right]; assumption. Qed.

Lemma nullish_loggable (v : JsValue) : nullish v = true -> loggable depth v.
Proof. unfold loggable. intros H. rewrite (nesting_nullish v H). lia. Qed.

Lemma webhook_too_deep (req_body : JsValue) (w : World) :
  ~ loggable depth req_body ->
  webhook env depth req_body w = (Throw stack_overflow, w).
Proof.
  intros H. unfold webhook, bind, lift.
  rewrite (JSON_stringify_throws req_body H). reflexivity.
Qed.

Lemma webhook_answered (req_body : JsValue) (w : World) (r : Response) :
  fst (webhook env depth req_body w) = Ok r -> loggable depth req_body.
Proof.
  intros H. destruct (loggable_dec req_body) as [G|G]; [exact G|].
  rewrite (webhook_too_deep req_body w G) in H. discriminate.
Qed.

Lemma webhook_nullish (req_body : JsValue) (w : World) :
  nullish req_body = true ->
  webhook env depth req_body w =
    let e := cannot_destructure req_body "event" "req.body" in
    (Ok (failure_response (message e)),
     logged (logged w (log_incoming req_body)) (error_stack "Webhook Error:" e)).
Proof.
  intros H. unfold webhook, bind, try_catch, lift, print, destructure, ret.
  rewrite (JSON_stringify_ok req_body (nullish_loggable req_body H)).
  rewrite H. reflexivity.
Qed.

Lemma webhook_run (req_body : JsValue) (w : World) :
  loggable depth req_body ->
  nullish req_body = false ->
  webhook env depth req_body w =
    let w0 := logged w (log_incoming req_body) in
    let event := prop req_body "event" in
    let data := prop req_body "data" in
    if negb (truthy event) || negb (truthy data) then
      (Ok (rejection "Missing event or data"), w0)
    else if negb (strict_eq_string event "schedule_appointment") then
      (Ok (rejection "Unsupported event type"), w0)
    else if negb (truthy (prop data "name")) || negb (truthy (prop data "email")) then
      (Ok (rejection "Missing required fields"), w0)
    else
      match addToCalendar env data w0 with
      | (Ok _, w1) => (Ok success_response, w1)
      | (Throw e, w1) =>
          (Ok (failure_response (message e)),
           logged w1 (error_stack "Webhook Error:" e))
      end.
Proof.
  intros Hl H. unfold webhook, bind, try_catch, lift, print, destructure, ret.
  rewrite (JSON_stringify_ok req_body Hl).
  rewrite H. cbv zeta.
  destruct (truthy (prop req_body "event")); [|reflexivity].
  destruct (truthy (prop req_body "data")) eqn:Hd; [|reflexivity].
  cbn [negb orb].
  destruct (strict_eq_string (prop req_body "event") "schedule_appointment");
    [|reflexivity].
  cbn [negb]. unfold get_prop. rewrite (truthy_not_nullish _ Hd).
  destruct (truthy (prop (prop req_body "data") "name")); [|reflexivity].
  destruct (truthy (prop (prop req_body "data") "email")); [|reflexivity].
  cbn [negb orb].
  destruct (addToCalendar env (prop req_body "data") (logged w (log_incoming req_body)))
    as [[u|e] w1]; reflexivity.
Qed.

End Validation.

(** ** Strings and ranges *)

Lemma length_append (a b : string) :
  String.length (a ++ b) = (String.length a + String.length b)%nat.
Proof. induction a as [|x a IH]; simpl; [reflexivity | now rewrite IH]. Qed.

Lemma append_inj_r (a b c : string) : a ++ c = b ++ c -> a = b.
Proof.
  revert b. induction a as [|x a IH]; intros [|y b] H; simpl in H.
  - reflexivity.
  - apply (f_equal String.length) in H. simpl in H.
    rewrite length_append in H. lia.
  - apply (f_equal String.length) in H. simpl in H.
    rewrite length_append in H. lia.
  - injection H as -> H. f_equal. now apply IH.
Qed.

Lemma in_range_has_title (cells name : string) (s : Sheet) :
  Service.in_range cells (name ++ "!" ++ cells) s = Service.has_title name s.
Proof.
  unfold Service.in_range, Service.has_title.
  destruct (String.eqb_spec (title s) name) as [->|Hne].
  - apply String.eqb_refl.
  - apply String.eqb_neq. intros H. apply Hne. eapply append_inj_r. exact H.
Qed.

Lemma in_range_append (name : string) (s : Sheet) :
  Service.in_range "A:E" (name ++ "!A:E") s = Service.has_title name s.
Proof. exact (in_range_has_title "A:E" name s). Qed.

Lemma in_range_header (name : string) (s : Sheet) :
  Service.in_range "A1:E1" (name ++ "!A1:E1") s = Service.has_title name s.
Proof. exact (in_range_has_title "A1:E1" name s). Qed.

(** ** The service *)

Module ServiceFacts.
Import Service.

Lemma find_ext {A} (p q : A -> bool) (l : list A) :
  (forall x, p x = q x) -> find p l = find q l.
Proof.
  intros H. induction l as [|x l IH]; simpl; [reflexivity|].
  rewrite H, IH. reflexivity.
Qed.

Lemma find_properties (name : string) (ss : list Sheet) :
  find (fun p => String.eqb (properties_title p) name)
       (map (fun s => mkProperties (sheetId s) (title s)) ss)
  = option_map (fun s => mkProperties (sheetId s) (title s))
               (find (has_title name) ss).
Proof.
  induction ss as [|s ss IH]; simpl; [reflexivity|].
  unfold has_title at 1. destruct (String.eqb (title s) name); auto.
Qed.

Lemma existsb_find {A} (p : A -> bool) (l : list A) :
  existsb p l = match find p l with Some _ => true | None => false end.
Proof.
  induction l as [|x l IH]; simpl; [reflexivity|].
  destruct (p x); simpl; auto.
Qed.

Lemma find_app_none {A} (p : A -> bool) (l l' : list A) :
  find p l = None -> find p (l ++ l')%list = find p l'.
Proof.
  induction l as [|x l IH]; simpl; [reflexivity|].
  destruct (p x); [discriminate | exact IH].
Qed.

Lemma batchUpdate_new (t : string) (r c : Z) (ss : list Sheet) :
  find (has_title t) ss = None ->
  batchUpdate [addSheet t r c] ss
  = Ok ([fresh_sheetId ss], (ss ++ [mkSheet (fresh_sheetId ss) t []])%list).
Proof.
  intros H. simpl. rewrite existsb_find, H. reflexivity.
Qed.

Lemma batchUpdate_duplicate (t : string) (r c : Z) (ss : list Sheet) (s : Sheet) :
  find (has_title t) ss = Some s ->
  batchUpdate [addSheet t r c] ss = Throw (duplicate_title t).
Proof.
  intros H. simpl. rewrite existsb_find, H. reflexivity.
Qed.

Lemma modify_first_some (p : Sheet -> bool) (f : Sheet -> Sheet)
    (ss : list Sheet) (s : Sheet) :
  find p ss = Some s ->
  (forall x, p (f x) = p x) ->
  exists ss', modify_first p f ss = Some ss' /\ find p ss' = Some (f s).
Proof.
  intros Hfind Hp. induction ss as [|x ss IH]; simpl in *; [discriminate|].
  destruct (p x) eqn:Hx.
  - injection Hfind as ->. eexists. split; [reflexivity|].
    simpl. rewrite Hp, Hx. reflexivity.
  - destruct (IH Hfind) as (ss' & -> & Hf). eexists. split; [reflexivity|].
    simpl. rewrite Hx. exact Hf.
Qed.

Lemma modify_first_inv (p : Sheet -> bool) (f : Sheet -> Sheet)
    (ss ss' : list Sheet) :
  modify_first p f ss = Some ss' ->
  (forall x, p (f x) = p x) ->
  exists s, find p ss = Some s /\ find p ss' = Some (f s).
Proof.
  intros H Hp. destruct (find p ss) as [s|] eqn:Hfind.
  - destruct (modify_first_some p f ss s Hfind Hp) as (ss0 & H0 & Hf).
    rewrite H0 in H. injection H as <-. eauto.
  - exfalso. revert ss' H. induction ss as [|x ss IH]; simpl in *; intros ss' H;
      [discriminate|].
    destruct (p x); [discriminate|].
    destruct (modify_first p f ss); [|discriminate].
    eapply IH; eauto.
Qed.

(** Modifying a sheet does not show through a test the sheet fails
    before and after. *)
Lemma modify_first_other (p q : Sheet -> bool) (f : Sheet -> Sheet)
    (ss ss' : list Sheet) :
  modify_first p f ss = Some ss' ->
  (forall x, p x = true -> q x = false /\ q (f x) = false) ->
  find q ss' = find q ss.
Proof.
  intros H Hq. revert ss' H. induction ss as [|x ss IH]; simpl; intros ss' H;
    [discriminate|].
  destruct (p x) eqn:Hx.
  - injection H as <-. simpl. destruct (Hq x Hx) as [-> ->]. reflexivity.
  - destruct (modify_first p f ss) as [ss0|]; [|discriminate].
    injection H as <-. simpl. rewrite (IH ss0 eq_refl). reflexivity.
Qed.

Lemma has_title_other (t t' : string) (s : Sheet) :
  t' <> t -> has_title t s = true -> has_title t' s = false.
Proof.
  unfold has_title. intros Hne H. apply String.eqb_eq in H.
  apply String.eqb_neq. congruence.
Qed.

(** An append on [name!A:E] that succeeds adds the rows to the first
    sheet titled [name] and leaves the other titles alone. *)
Lemma append_inv (name option : string) (values : list (list JsValue))
    (ss ss' : list Sheet) (u : Updates) :
  append (name ++ "!A:E") option values ss = Ok (u, ss') ->
  exists s, find (has_title name) ss = Some s
    /\ find (has_title name) ss' = Some (append_rows option values s)
    /\ forall name', name' <> name ->
         find (has_title name') ss' = find (has_title name') ss.
Proof.
  unfold append. destruct (accepted values); [|discriminate].
  rewrite (find_ext _ _ ss (in_range_append name)).
  destruct (find (has_title name) ss) as [s|] eqn:Hfind; [|discriminate].
  destruct (modify_first _ _ ss) as [ss0|] eqn:Hm; [|discriminate].
  intros H. injection H as _ <-.
  exists s. split; [reflexivity|]. split.
  - destruct (modify_first_inv _ _ _ _ Hm) as (s0 & H0 & H1).
    + intros x. rewrite !in_range_append. reflexivity.
    + rewrite (find_ext _ _ ss (in_range_append name)) in H0.
      rewrite (find_ext _ _ ss0 (in_range_append name)) in H1.
      congruence.
  - intros name' Hne. eapply modify_first_other; [exact Hm|].
    intros x Hx. rewrite in_range_append in Hx.
    split; eapply has_title_other; eauto.
Qed.

Lemma append_some (name option : string) (values : list (list JsValue))
    (ss : list Sheet) (s : Sheet) :
  accepted values = true ->
  find (has_title name) ss = Some s ->
  exists ss', append (name ++ "!A:E") option values ss
              = Ok (updates_of s values, ss').
Proof.
  intros Hacc Hfind. unfold append. rewrite Hacc.
  rewrite (find_ext _ _ ss (in_range_append name)), Hfind.
  destruct (modify_first_some (in_range "A:E" (name ++ "!A:E"))
              (append_rows option values) ss s) as (ss' & -> & _).
  - rewrite (find_ext _ _ ss (in_range_append name)). exact Hfind.
  - intros x. rewrite !in_range_append. reflexivity.
  - eexists. reflexivity.
Qed.

End ServiceFacts.

(** ** Remote calls *)

Section Remote.

Context {A : Type} (req : Request)
        (service : list Sheet -> Result (A * list Sheet)).

Lemma remote_failure (w : World) (e : JsError) :
  failure (next_outcome (oracle w)) = Some e ->
  remote req service w = (Throw e, after_call w req (sheets w) (Some e)).
Proof. unfold remote. intros ->. reflexivity. Qed.

Lemma remote_success (w : World) (a : A) (ss : list Sheet) :
  failure (next_outcome (oracle w)) = None ->
  service (sheets w) = Ok (a, ss) ->
  remote req service w = (Ok a, after_call w req ss None).
Proof. unfold remote. intros -> ->. reflexivity. Qed.

Lemma remote_rejected (w : World) (e : JsError) :
  failure (next_outcome (oracle w)) = None ->
  service (sheets w) = Throw e ->
  remote req service w = (Throw e, after_call w req (sheets w) (Some e)).
Proof. unfold remote. intros -> ->. reflexivity. Qed.

Lemma remote_ok_inv (w w' : World) (a : A) :
  remote req service w = (Ok a, w') ->
  exists ss, service (sheets w) = Ok (a, ss) /\ w' = after_call w req ss None.
Proof.
  unfold remote. destruct (failure _); [discriminate|].
  destruct (service (sheets w)) as [[a0 ss]|e]; [|discriminate].
  intros H. injection H as -> <-. eauto.
Qed.

Lemma remote_throw_inv (w w' : World) (e : JsError) :
  remote req service w = (Throw e, w') ->
  w' = after_call w req (sheets w) (Some e).
Proof.
  unfold remote. destruct (failure _).
  - intros H. injection H as -> <-. reflexivity.
  - destruct (service (sheets w)) as [[a0 ss]|e0]; [discriminate|].
    intros H. injection H as -> <-. reflexivity.
Qed.

Lemma remote_propagates : propagates (remote req service).
Proof.
  intros w r w' H. destruct r as [a|e].
  - apply remote_ok_inv in H. destruct H as (ss & _ & ->).
    eexists. split; [reflexivity|].
    intros c e [<-|[]]. discriminate.
  - apply remote_throw_inv in H. subst w'.
    eexists. split; [reflexivity|].
    intros c e' [<-|[]]. simpl. congruence.
Qed.

End Remote.

Lemma no_failure_next (w : World) :
  no_failure w -> failure (next_outcome (oracle w)) = None.
Proof.
  unfold no_failure. destruct (oracle w) as [|o os]; simpl; [reflexivity|].
  intros H. inversion H. assumption.
Qed.

Lemma no_failure_after_call (w : World) (req : Request) (ss : list Sheet)
    (err : option JsError) :
  no_failure w -> no_failure (after_call w req ss err).
Proof.
  unfold no_failure. simpl. destruct (oracle w) as [|o os]; simpl; [auto|].
  intros H. inversion H. assumption.
Qed.

(** ** Failures propagate *)

Lemma ret_propagates {A} (a : A) : propagates (ret a).
Proof.
  intros w r w' H. injection H as <- <-. exists []. split.
  - symmetry. apply app_nil_r.
  - intros c e [].
Qed.

Lemma lift_propagates {A} (x : Result A) : propagates (lift x).
Proof.
  intros w r w' H. injection H as <- <-. exists []. split.
  - symmetry. apply app_nil_r.
  - intros c e [].
Qed.

Lemma print_propagates (entry : LogEntry) : propagates (print entry).
Proof.
  intros w r w' H. injection H as <- <-. exists []. split.
  - symmetry. apply app_nil_r.
  - intros c e [].
Qed.

Lemma Date_now_propagates : propagates Date_now.
Proof.
  intros w r w' H. injection H as <- <-. exists []. split.
  - symmetry. apply app_nil_r.
  - intros c e [].
Qed.

Lemma bind_propagates {A B} (m : M A) (k : A -> M B) :
  propagates m -> (forall a, propagates (k a)) -> propagates (bind m k).
Proof.
  intros Hm Hk w r w' H. unfold bind in H.
  destruct (m w) as [[a|e] w1] eqn:Hrun.
  - destruct (Hm _ _ _ Hrun) as (cs1 & E1 & R1).
    destruct (Hk a _ _ _ H) as (cs2 & E2 & R2).
    exists (cs1 ++ cs2)%list. split.
    + rewrite E2, E1. symmetry. apply app_assoc.
    + intros c e Hin Hc. apply in_app_or in Hin. destruct Hin as [Hin|Hin].
      * specialize (R1 c e Hin Hc). discriminate.
      * exact (R2 c e Hin Hc).
  - injection H as <- <-. destruct (Hm _ _ _ Hrun) as (cs & E & R).
    exists cs. split; [exact E|].
    intros c e' Hin Hc. specialize (R c e' Hin Hc). congruence.
Qed.

Lemma if_propagates {A} (b : bool) (m1 m2 : M A) :
  propagates m1 -> propagates m2 -> propagates (if b then m1 else m2).
Proof. destruct b; auto. Qed.

Create HintDb propagate.

#[local] Hint Resolve ret_propagates lift_propagates print_propagates
  Date_now_propagates remote_propagates bind_propagates if_propagates : propagate.

Lemma getSheetId_propagates (env : Env) (name : string) :
  propagates (getSheetId env name).
Proof.
  unfold getSheetId. apply bind_propagates; [auto with propagate|].
  intros res. destruct (find _ res); auto with propagate.
Qed.

Lemma provision_propagates (env : Env) : propagates (provision env).
Proof. unfold provision. repeat (apply bind_propagates; [|intro]); auto with propagate. Qed.

Lemma build_row_propagates (data : JsValue) : propagates (build_row data).
Proof.
  unfold build_row. repeat (apply bind_propagates; [|intro]); auto with propagate.
Qed.

Lemma ensure_sheet_propagates (env : Env) : propagates (ensure_sheet env).
Proof.
  unfold ensure_sheet.
  apply bind_propagates; [apply getSheetId_propagates | intros sheetId].
  apply if_propagates; [apply provision_propagates | apply ret_propagates].
Qed.

Lemma append_data_propagates (env : Env) (data : JsValue) :
  propagates (append_data env data).
Proof.
  unfold append_data.
  apply bind_propagates; [apply build_row_propagates | intros row].
  apply bind_propagates; [apply remote_propagates | intros response].
  apply bind_propagates; [apply print_propagates | intros _].
  apply ret_propagates.
Qed.

Lemma addToCalendar_try_propagates (env : Env) (data : JsValue) :
  propagates (addToCalendar_try env data).
Proof.
  unfold addToCalendar_try.
  apply bind_propagates; [apply ensure_sheet_propagates | intros _].
  apply append_data_propagates.
Qed.

(** ** The blocks of [addToCalendar], run *)

Lemma new_calls_app (w w' : World) (cs : list Call) :
  calls w' = (calls w ++ cs)%list -> new_calls w w' = cs.
Proof.
  unfold new_calls. intros ->. induction (calls w) as [|c l IH]; simpl; auto.
Qed.

Lemma new_calls_same (w w' : World) : calls w' = calls w -> new_calls w w' = [].
Proof.
  intros H. apply new_calls_app. rewrite H. symmetry. apply app_nil_r.
Qed.

Lemma for_each_print (f : string -> LogEntry) (es : list string) (w : World) :
  for_each (fun e => print (f e)) es w
  = (Ok tt,
     {| sheets := sheets w; clock := clock w; oracle := oracle w;
        calls := calls w; console := console w ++ map f es |}).
Proof.
  revert w. induction es as [|e es IH]; intros w; simpl.
  - unfold ret. rewrite app_nil_r. destruct w; reflexivity.
  - unfold bind, print. rewrite IH. simpl. rewrite <- app_assoc. reflexivity.
Qed.

Lemma addToCalendar_catch_run (e : JsError) (w : World) :
  addToCalendar_catch e w = (Throw (wrapped e), reported w e).
Proof.
  unfold addToCalendar_catch, bind, throw, reported, sub_errors.
  unfold print at 1. cbv beta iota.
  destruct (errors e) as [es|].
  - rewrite (for_each_print (error_line "-")). unfold logged. simpl.
    rewrite <- app_assoc. reflexivity.
  - unfold logged, ret. reflexivity.
Qed.

Section Blocks.

Variable env : Env.

Lemma addToCalendar_run (data : JsValue) (w : World) :
  addToCalendar env data w =
    match addToCalendar_try env data w with
    | (Ok u, w') => (Ok u, w')
    | (Throw e, w') => (Throw (wrapped e), reported w' e)
    end.
Proof.
  unfold addToCalendar, try_catch.
  destruct (addToCalendar_try env data w) as [[u|e] w']; [reflexivity|].
  apply addToCalendar_catch_run.
Qed.

Lemma getSheetId_run (name : string) (w : World) :
  getSheetId env name w =
    match failure (next_outcome (oracle w)) with
    | Some e => (Throw e, after_call w (get_request env) (sheets w) (Some e))
    | None => (Ok (resolved name (sheets w)),
               after_call w (get_request env) (sheets w) None)
    end.
Proof.
  unfold getSheetId, bind, remote, Service.get, resolved, get_request.
  destruct (failure _); [reflexivity|].
  rewrite ServiceFacts.find_properties.
  destruct (find (Service.has_title name) (sheets w)); reflexivity.
Qed.

Lemma build_row_run (data : JsValue) (w : World) :
  nullish data = false ->
  build_row data w = (Ok (row_of (clock w) data), w).
Proof.
  intros H. unfold build_row, bind, lift, get_prop, Date_now, ret, row_of, js_or.
  rewrite H. destruct (truthy (prop data "date")); reflexivity.
Qed.

Lemma build_row_nullish (data : JsValue) (w : World) :
  nullish data = true ->
  build_row data w = (Throw (cannot_read data "date"), w).
Proof.
  intros H. unfold build_row, bind, lift, get_prop. rewrite H. reflexivity.
Qed.

Lemma append_data_run (data : JsValue) (w : World) :
  nullish data = false ->
  append_data env data w =
    let req := append_request env (row_of (clock w) data) in
    match failure (next_outcome (oracle w)) with
    | Some e => (Throw e, after_call w req (sheets w) (Some e))
    | None =>
        match Service.append (SHEET_NAME env ++ "!A:E") "USER_ENTERED"
                [row_of (clock w) data] (sheets w) with
        | Ok (u, ss) => (Ok u, logged (after_call w req ss None) (log_event_added u))
        | Throw e => (Throw e, after_call w req (sheets w) (Some e))
        end
    end.
Proof.
  intros H. unfold append_data, bind. rewrite (build_row_run data w H).
  unfold remote, append_request, print, ret. cbv zeta.
  destruct (failure _); [reflexivity|].
  destruct (Service.append _ _ _ _) as [[u ss]|e]; reflexivity.
Qed.

Lemma modify_first_last (p : Sheet -> bool) (f : Sheet -> Sheet)
    (l : list Sheet) (x : Sheet) :
  find p l = None -> p x = true ->
  Service.modify_first p f (l ++ [x]) = Some (l ++ [f x])%list.
Proof.
  intros Hl Hx. induction l as [|y l IH]; simpl in *.
  - rewrite Hx. reflexivity.
  - destruct (p y); [discriminate|]. rewrite (IH Hl). reflexivity.
Qed.

Lemma update_new_sheet (ss : list Sheet) :
  find (Service.has_title (SHEET_NAME env)) ss = None ->
  Service.update (SHEET_NAME env ++ "!A1:E1") "USER_ENTERED" [header_row]
    (ss ++ [new_sheet env ss])
  = Ok (tt, (ss ++ [headed_sheet env ss])%list).
Proof.
  intros H. unfold Service.update.
  rewrite (modify_first_last _ (Service.write_rows "USER_ENTERED" [header_row]) ss (new_sheet env ss)).
  - reflexivity.
  - rewrite (ServiceFacts.find_ext _ _ ss (in_range_header (SHEET_NAME env))).
    exact H.
  - rewrite in_range_header. apply String.eqb_refl.
Qed.

Lemma provision_run (w : World) :
  provision env w =
    let w1 := logged w (log_line ("Creating new sheet: " ++ SHEET_NAME env)) in
    match failure (next_outcome (oracle w)) with
    | Some e => (Throw e, after_call w1 (add_request env) (sheets w) (Some e))
    | None =>
        match find (Service.has_title (SHEET_NAME env)) (sheets w) with
        | Some _ =>
            let e := Service.duplicate_title (SHEET_NAME env) in
            (Throw e, after_call w1 (add_request env) (sheets w) (Some e))
        | None =>
            let ss := (sheets w ++ [new_sheet env (sheets w)])%list in
            let w2 := after_call w1 (add_request env) ss None in
            match failure (next_outcome (oracle w2)) with
            | Some e => (Throw e, after_call w2 (header_request env) ss (Some e))
            | None =>
                (Ok tt,
                 after_call w2 (header_request env)
                   (sheets w ++ [headed_sheet env (sheets w)])%list None)
            end
        end
    end.
Proof.
  unfold provision, bind, print. cbv zeta.
  unfold remote at 1. cbn [oracle sheets logged].
  destruct (failure (next_outcome (oracle w))); [reflexivity|].
  destruct (find (Service.has_title (SHEET_NAME env)) (sheets w)) as [s|] eqn:Hfind.
  - rewrite (ServiceFacts.batchUpdate_duplicate _ _ _ _ s Hfind). reflexivity.
  - rewrite (ServiceFacts.batchUpdate_new _ _ _ _ Hfind).
    unfold lift, first_reply, remote. cbn [sheets after_call].
    fold (new_sheet env (sheets w)).
    rewrite (update_new_sheet (sheets w) Hfind).
    destruct (failure _); reflexivity.
Qed.

Lemma ensure_sheet_run (w : World) :
  ensure_sheet env w =
    match failure (next_outcome (oracle w)) with
    | Some e => (Throw e, after_call w (get_request env) (sheets w) (Some e))
    | None =>
        let w1 := after_call w (get_request env) (sheets w) None in
        if truthy (resolved (SHEET_NAME env) (sheets w)) then (Ok tt, w1)
        else provision env w1
    end.
Proof.
  unfold ensure_sheet, bind. rewrite getSheetId_run.
  destruct (failure _); [reflexivity|]. cbv zeta.
  destruct (truthy (resolved (SHEET_NAME env) (sheets w))); reflexivity.
Qed.

End Blocks.

(** ** Validation *)

(** C2, as stated, fails: a request whose [event] is present and is
    not ["schedule_appointment"] is answered "Missing event or data"
    when [data] is absent, and likewise when [event] is the empty
    string, not "Unsupported event type". *)
Lemma present_event_not_reported_unsupported :
  ~ (forall req_body s,
        prop req_body "event" = JStr s -> s <> "schedule_appointment" ->
        fst (webhook default_env sample_depth req_body empty_world)
        = Ok (rejection "Unsupported event type"))
  /\ fst (webhook default_env sample_depth cancel_without_data empty_world)
     = Ok (rejection "Missing event or data")
  /\ fst (webhook default_env sample_depth empty_event empty_world)
     = Ok (rejection "Missing event or data").
Proof.
  split; [|split; reflexivity].
  intros H. specialize (H cancel_without_data "cancel_appointment" eq_refl).
  assert (Hne : "cancel_appointment" <> "schedule_appointment") by discriminate.
  specialize (H Hne). discriminate H.
Qed.

(** C2, amended: for a body whose log on arrival returns, the checks
    test truthiness and apply in order.  A body that is [undefined]
    or [null] is answered 500.  Of any other body, a falsy [event] or
    [data] is answered "Missing event or data"; a truthy [event]
    other than ["schedule_appointment"], with truthy [data],
    "Unsupported event type"; the right [event] with truthy [data]
    and a falsy [data.name] or [data.email], "Missing required
    fields"; and a request that passes the three checks is not
    answered 400. *)
Theorem validation_responses (env : Env) (depth : nat) (req_body : JsValue)
    (w : World) :
  loggable depth req_body ->
  let event := prop req_body "event" in
  let data := prop req_body "data" in
  let answer := fst (webhook env depth req_body w) in
  (nullish req_body = true ->
   answer = Ok (failure_response
                  (message (cannot_destructure req_body "event" "req.body"))))
  /\ (nullish req_body = false ->
      (truthy event = false \/ truthy data = false ->
       answer = Ok (rejection "Missing event or data"))
      /\ (truthy event = true -> truthy data = true ->
          event <> JStr "schedule_appointment" ->
          answer = Ok (rejection "Unsupported event type"))
      /\ (event = JStr "schedule_appointment" -> truthy data = true ->
          truthy (prop data "name") = false \/ truthy (prop data "email") = false ->
          answer = Ok (rejection "Missing required fields"))
      /\ (event = JStr "schedule_appointment" ->
          truthy (prop data "name") = true -> truthy (prop data "email") = true ->
          exists r, answer = Ok r /\ status r <> 400)).
Proof.
  intros Hl event data answer. subst answer. split.
  { intros Hb. rewrite (webhook_nullish env depth req_body w Hb). reflexivity. }
  intros Hb.
  rewrite (webhook_run env depth req_body w Hl Hb). cbv zeta. fold event. fold data.
  repeat split.
  - intros [H|H]; rewrite H; [reflexivity|].
    destruct (truthy event); reflexivity.
  - intros He Hd Hne. rewrite He, Hd. cbn [negb orb].
    destruct (strict_eq_string event "schedule_appointment") eqn:Heq.
    + apply strict_eq_string_true in Heq. contradiction.
    + reflexivity.
  - intros He Hd Hf. rewrite He, Hd. cbn [truthy string_empty negb orb].
    rewrite (proj2 (strict_eq_string_true _ _) eq_refl). cbn [negb].
    destruct Hf as [H|H]; rewrite H; [reflexivity|].
    destruct (truthy (prop data "name")); reflexivity.
  - intros He Hn Hm. rewrite He, Hn, Hm.
    destruct (truthy_prop_object _ _ Hn) as (fields & Hd). rewrite Hd.
    cbn [truthy string_empty negb orb].
    rewrite (proj2 (strict_eq_string_true _ _) eq_refl). cbn [negb].
    destruct (addToCalendar env (JObj fields) _) as [[u|e] w1];
      eexists; (split; [reflexivity | discriminate]).
Qed.

Lemma validation_responses_witness :
  loggable sample_depth cancel
  /\ fst (webhook default_env sample_depth cancel empty_world)
     = Ok (rejection "Unsupported event type")
  /\ fst (webhook default_env sample_depth JUndefined empty_world)
     = Ok (failure_response
             "Cannot destructure property 'event' of 'req.body' as it is undefined.").
Proof.
  assert (Hl : loggable sample_depth cancel) by (vm_compute; lia).
  assert (Hu : loggable sample_depth JUndefined) by (vm_compute; lia).
  split; [exact Hl|]. split.
  - apply (validation_responses default_env sample_depth cancel empty_world Hl);
      [reflexivity | reflexivity | reflexivity | discriminate].
  - apply (validation_responses default_env sample_depth JUndefined empty_world Hu).
    reflexivity.
Defined.

(** C8: a request answered 400 makes no remote call and leaves the
    spreadsheet, the clock and the pending outcomes as they were. *)
Theorem rejected_request_changes_nothing (env : Env) (depth : nat)
    (req_body : JsValue) (w : World) (r : Response) :
  fst (webhook env depth req_body w) = Ok r ->
  status r = 400 ->
  let w' := snd (webhook env depth req_body w) in
  new_calls w w' = [] /\ calls w' = calls w /\ sheets w' = sheets w
  /\ clock w' = clock w /\ oracle w' = oracle w.
Proof.
  intros Hr Hs. cbv zeta.
  pose proof (webhook_answered env depth req_body w r Hr) as Hl.
  destruct (nullish req_body) eqn:Hb.
  - rewrite (webhook_nullish env depth req_body w Hb) in Hr. cbv zeta in Hr.
    simpl in Hr. injection Hr as <-. discriminate Hs.
  - rewrite (webhook_run env depth req_body w Hl Hb) in Hr |- *. cbv zeta in Hr |- *.
    destruct (negb (truthy (prop req_body "event"))
              || negb (truthy (prop req_body "data")));
      [repeat split; apply new_calls_same; reflexivity|].
    destruct (negb (strict_eq_string (prop req_body "event") "schedule_appointment"));
      [repeat split; apply new_calls_same; reflexivity|].
    destruct (negb (truthy (prop (prop req_body "data") "name"))
              || negb (truthy (prop (prop req_body "data") "email")));
      [repeat split; apply new_calls_same; reflexivity|].
    destruct (addToCalendar env _ _) as [[u|e] w1];
      simpl in Hr; injection Hr as <-; discriminate Hs.
Qed.

Lemma rejected_request_changes_nothing_witness :
  let w := world_with [mkSheet 0 "Calendar" [header_cells]] [] in
  let w' := snd (webhook default_env sample_depth cancel w) in
  new_calls w w' = [] /\ calls w' = calls w /\ sheets w' = sheets w
  /\ clock w' = clock w /\ oracle w' = oracle w.
Proof.
  exact (rejected_request_changes_nothing default_env sample_depth cancel
           (world_with [mkSheet 0 "Calendar" [header_cells]] [])
           (rejection "Unsupported event type") eq_refl eq_refl).
Defined.

(** The falsy values a JSON field can hold. *)
Lemma present_falsy_values :
  Forall (fun v => truthy v = false /\ v <> JUndefined)
    [JStr EmptyString; JNum (S754_zero false); JNum (S754_zero true);
     JBool false; JNull].
Proof. repeat constructor; discriminate. Qed.

(** C9, as stated, fails: a body whose [event] is the empty string
    (present and falsy) and whose [data] is nested deeper than
    [JSON.stringify] handles is not answered 400, nor answered at
    all.  The log on arrival is ahead of the [try]; what it throws
    leaves the handler with nothing logged and no response sent. *)
Lemma falsy_event_in_deep_body_is_not_answered :
  ~ (forall req_body,
        prop req_body "event" = JStr EmptyString ->
        fst (webhook default_env sample_depth req_body empty_world)
        = Ok (rejection "Missing event or data"))
  /\ (forall env depth w,
        prop (deep_empty_event depth) "event" = JStr EmptyString
        /\ webhook env depth (deep_empty_event depth) w = (Throw stack_overflow, w)).
Proof.
  assert (G : forall env depth w,
             webhook env depth (deep_empty_event depth) w = (Throw stack_overflow, w)).
  { intros env depth w. apply webhook_too_deep. unfold loggable.
    rewrite deep_empty_event_nesting. lia. }
  split.
  - intros H. specialize (H (deep_empty_event sample_depth) eq_refl).
    rewrite G in H. discriminate H.
  - intros env depth w. split; [reflexivity | apply G].
Qed.

(** C9, amended: the checks test truthiness.  Of a body other than
    [undefined] and [null] whose log on arrival returns, a falsy
    [event] or [data], present or not, is answered "Missing event or
    data", also when [event] is the empty string; with the right
    [event] and a truthy [data], a falsy [data.name] or [data.email]
    is answered "Missing required fields". *)
Theorem falsy_field_is_missing (env : Env) (depth : nat) (req_body : JsValue)
    (w : World) (v : JsValue) :
  loggable depth req_body ->
  nullish req_body = false ->
  truthy v = false ->
  let data := prop req_body "data" in
  (prop req_body "event" = v \/ data = v ->
   fst (webhook env depth req_body w) = Ok (rejection "Missing event or data"))
  /\ (prop req_body "event" = JStr "schedule_appointment" ->
      truthy data = true ->
      prop data "name" = v \/ prop data "email" = v ->
      fst (webhook env depth req_body w) = Ok (rejection "Missing required fields")).
Proof.
  intros Hl Hb Hv data.
  rewrite (webhook_run env depth req_body w Hl Hb). cbv zeta. fold data.
  split.
  - intros [H|H]; rewrite H, Hv; [reflexivity|].
    destruct (truthy (prop req_body "event")); reflexivity.
  - intros He Hd Hf. rewrite He, Hd. cbn [truthy string_empty negb orb].
    rewrite (proj2 (strict_eq_string_true _ _) eq_refl). cbn [negb].
    destruct Hf as [H|H]; rewrite H, Hv; [reflexivity|].
    destruct (truthy (prop data "name")); reflexivity.
Qed.

Lemma falsy_field_is_missing_witness :
  (loggable sample_depth empty_event /\ loggable sample_depth empty_name
   /\ nullish empty_event = false /\ truthy (JStr EmptyString) = false)
  /\ fst (webhook default_env sample_depth empty_event empty_world)
     = Ok (rejection "Missing event or data")
  /\ fst (webhook default_env sample_depth empty_name empty_world)
     = Ok (rejection "Missing required fields").
Proof.
  assert (Hl : loggable sample_depth empty_event) by (vm_compute; lia).
  assert (Hl' : loggable sample_depth empty_name) by (vm_compute; lia).
  split; [repeat split; [exact Hl | exact Hl']|]. split.
  - apply (falsy_field_is_missing default_env sample_depth empty_event empty_world
             (JStr EmptyString) Hl eq_refl eq_refl).
    left. reflexivity.
  - apply (falsy_field_is_missing default_env sample_depth empty_name empty_world
             (JStr EmptyString) Hl' eq_refl eq_refl);
      [reflexivity | reflexivity | left; reflexivity].
Defined.

(** ** The resolver *)

(** C5: when the metadata read succeeds, the resolver answers the
    identifier of a sheet whose title is exactly the name asked for
    (the first one listed), and [null] when no title is. *)
Theorem resolver_finds_exact_title (env : Env) (name : string) (w : World) :
  failure (next_outcome (oracle w)) = None ->
  exists v,
    fst (getSheetId env name w) = Ok v
    /\ v = resolved name (sheets w)
    /\ ((exists s, In s (sheets w) /\ title s = name
                   /\ v = JNum (num_of_Z (sheetId s)))
        \/ ((forall s, In s (sheets w) -> title s <> name) /\ v = JNull)).
Proof.
  intros Hok. rewrite getSheetId_run, Hok. eexists. split; [reflexivity|].
  split; [reflexivity|]. unfold resolved.
  destruct (find (Service.has_title name) (sheets w)) as [s|] eqn:Hfind.
  - left. apply find_some in Hfind. destruct Hfind as [Hin Ht].
    exists s. repeat split; [exact Hin|]. now apply String.eqb_eq.
  - right. split; [|reflexivity].
    intros s Hin. apply String.eqb_neq.
    exact (find_none _ _ Hfind s Hin).
Qed.

Lemma resolver_finds_exact_title_witness :
  let w := world_with [mkSheet 0 "Sheet1" []; mkSheet 42 "Calendar" []] [] in
  failure (next_outcome (oracle w)) = None
  /\ fst (getSheetId default_env "Calendar" w) = Ok (JNum (num_of_Z 42)).
Proof.
  split; [reflexivity|].
  destruct (resolver_finds_exact_title default_env "Calendar"
              (world_with [mkSheet 0 "Sheet1" []; mkSheet 42 "Calendar" []] [])
              eq_refl) as (v & Hrun & Hv & _).
  rewrite Hrun, Hv. reflexivity.
Defined.

(** The comparison is case sensitive. *)
Example resolver_is_case_sensitive :
  fst (getSheetId default_env "Calendar"
         (world_with [mkSheet 7 "calendar" []; mkSheet 8 "CALENDAR" []] []))
  = Ok JNull.
Proof. reflexivity. Qed.

(** ** Failures of the spreadsheet service *)

Lemma webhook_calls_of_addToCalendar (env : Env) (depth : nat)
    (req_body : JsValue) (w : World) (c : Call) :
  In c (new_calls w (snd (webhook env depth req_body w))) ->
  nullish req_body = false
  /\ snd (webhook env depth req_body w)
     = match addToCalendar env (prop req_body "data")
               (logged w (log_incoming req_body)) with
       | (Ok _, w1) => w1
       | (Throw e, w1) => logged w1 (error_stack "Webhook Error:" e)
       end
  /\ fst (webhook env depth req_body w)
     = match addToCalendar env (prop req_body "data")
               (logged w (log_incoming req_body)) with
       | (Ok _, _) => Ok success_response
       | (Throw e, _) => Ok (failure_response (message e))
       end.
Proof.
  destruct (loggable_dec depth req_body) as [Hl|Hl];
    [|rewrite (webhook_too_deep env depth req_body w Hl);
      rewrite new_calls_same by reflexivity; intros []].
  destruct (nullish req_body) eqn:Hb.
  - rewrite (webhook_nullish env depth req_body w Hb). cbv zeta.
    rewrite new_calls_same by reflexivity. intros [].
  - rewrite (webhook_run env depth req_body w Hl Hb). cbv zeta.
    destruct (negb (truthy (prop req_body "event"))
              || negb (truthy (prop req_body "data")));
      [rewrite new_calls_same by reflexivity; intros []|].
    destruct (negb (strict_eq_string (prop req_body "event") "schedule_appointment"));
      [rewrite new_calls_same by reflexivity; intros []|].
    destruct (negb (truthy (prop (prop req_body "data") "name"))
              || negb (truthy (prop (prop req_body "data") "email")));
      [rewrite new_calls_same by reflexivity; intros []|].
    intros _. split; [reflexivity|].
    destruct (addToCalendar env _ _) as [[u|e] w1]; split; reflexivity.
Qed.

(** C7: whichever remote call raises an error [e], the answer is 500
    with [details] the fixed prefix followed by the message of [e];
    the messages of the sub-errors of [e] are on the console, and the
    answer holds nothing but [error] and [details]. *)
Theorem backend_failure_is_wrapped (env : Env) (depth : nat) (req_body : JsValue)
    (w : World) (c : Call) (e : JsError) :
  let w' := snd (webhook env depth req_body w) in
  In c (new_calls w w') ->
  raised c = Some e ->
  fst (webhook env depth req_body w)
  = Ok {| status := 500;
          body := JObj [("error", JStr "Internal server error");
                        ("details",
                         JStr ("Failed to update spreadsheet: " ++ message e))] |}
  /\ In (error_line "Sheets API Error:" (message e)) (console w')
  /\ forall sub, In sub (sub_errors e) -> In (error_line "-" sub) (console w').
Proof.
  cbv zeta. intros Hin Hc.
  destruct (webhook_calls_of_addToCalendar env depth req_body w c Hin)
    as (Hb & Hw & Hr).
  rewrite Hw in Hin |- *. rewrite Hr. clear Hw Hr.
  rewrite addToCalendar_run in Hin |- *.
  destruct (addToCalendar_try env (prop req_body "data")
              (logged w (log_incoming req_body))) as [[u|e0] w1] eqn:Hrun.
  - destruct (addToCalendar_try_propagates env _ _ _ _ Hrun) as (cs & Hcs & R).
    rewrite (new_calls_app w w1 cs Hcs) in Hin.
    specialize (R c e Hin Hc). discriminate R.
  - destruct (addToCalendar_try_propagates env _ _ _ _ Hrun) as (cs & Hcs & R).
    rewrite (new_calls_app w (logged (reported w1 e0) _) cs Hcs) in Hin.
    specialize (R c e Hin Hc). injection R as ->.
    split; [reflexivity|]. split.
    + simpl. apply in_or_app. left. apply in_or_app. right. left. reflexivity.
    + intros sub Hsub. simpl. apply in_or_app. left. apply in_or_app. right.
      right. apply in_map. exact Hsub.
Qed.

Lemma backend_failure_is_wrapped_witness :
  let w := world_with [mkSheet 0 "Sheet1" []] [failing invalid_credentials] in
  let c := mkCall 1762128000000 (get_request default_env) (Some invalid_credentials) in
  (In c (new_calls w (snd (webhook default_env sample_depth jane w)))
   /\ raised c = Some invalid_credentials)
  /\ fst (webhook default_env sample_depth jane w)
     = Ok (failure_response
             "Failed to update spreadsheet: invalid_grant: Invalid JWT Signature.").
Proof.
  split; [split; [left; reflexivity | reflexivity]|].
  apply (backend_failure_is_wrapped default_env sample_depth jane
           (world_with [mkSheet 0 "Sheet1" []] [failing invalid_credentials])
           (mkCall 1762128000000 (get_request default_env) (Some invalid_credentials))
           invalid_credentials);
    [left; reflexivity | reflexivity].
Defined.

(** Each of the four calls can be the one that fails. *)
Example creation_failure_answer :
  webhook default_env sample_depth jane
    (world_with [mkSheet 0 "Sheet1" []] [slow; failing invalid_credentials])
  = (Ok (failure_response
           "Failed to update spreadsheet: invalid_grant: Invalid JWT Signature."),
     {| sheets := [mkSheet 0 "Sheet1" []];
        clock := 1762128000370;
        oracle := [];
        calls := [mkCall 1762128000000 (get_request default_env) None;
                  mkCall 1762128000120 (add_request default_env)
                    (Some invalid_credentials)];
        console := [log_incoming jane;
                    log_line "Creating new sheet: Calendar";
                    error_line "Sheets API Error:" "invalid_grant: Invalid JWT Signature.";
                    error_line "-" "Invalid JWT Signature.";
                    error_stack "Webhook Error:" (wrapped invalid_credentials)] |}).
Proof. reflexivity. Qed.

Example header_failure_answer :
  let run := webhook default_env sample_depth jane
               (world_with [mkSheet 0 "Sheet1" []]
                  [slow; slow; failing invalid_credentials]) in
  fst run = Ok (failure_response
                  "Failed to update spreadsheet: invalid_grant: Invalid JWT Signature.")
  /\ map raised (calls (snd run)) = [None; None; Some invalid_credentials]
  /\ sheets (snd run) = [mkSheet 0 "Sheet1" []; mkSheet 1 "Calendar" []].
Proof. repeat split; reflexivity. Qed.

Example append_failure_answer :
  let run := webhook default_env sample_depth jane
               (world_with [mkSheet 5 "Calendar" [header_cells]]
                  [slow; failing invalid_credentials]) in
  fst run = Ok (failure_response
                  "Failed to update spreadsheet: invalid_grant: Invalid JWT Signature.")
  /\ map raised (calls (snd run)) = [None; Some invalid_credentials]
  /\ sheets (snd run) = [mkSheet 5 "Calendar" [header_cells]].
Proof. repeat split; reflexivity. Qed.

(** ** The successful run *)

Section Success.

Variable env : Env.

Local Abbreviation name := (SHEET_NAME env).

Lemma find_headed_sheet (ss : list Sheet) :
  find (Service.has_title name) ss = None ->
  find (Service.has_title name) (ss ++ [headed_sheet env ss]) = Some (headed_sheet env ss).
Proof.
  intros H. rewrite (ServiceFacts.find_app_none _ _ _ H). simpl.
  unfold Service.has_title. simpl. rewrite String.eqb_refl. reflexivity.
Qed.

Lemma find_other_headed (name' : string) (ss : list Sheet) (x : Sheet) :
  name' <> name -> title x = name ->
  find (Service.has_title name') (ss ++ [x]) = find (Service.has_title name') ss.
Proof.
  intros Hne Hx. induction ss as [|y ss IH]; simpl.
  - unfold Service.has_title. rewrite Hx.
    destruct (String.eqb_spec name name'); congruence.
  - destruct (Service.has_title name' y); auto.
Qed.

(** What a successful first step leaves: the sheet is there, found
    under a nonzero identifier or just created with its header. *)
Lemma ensure_sheet_ok_inv (w w' : World) :
  ensure_sheet env w = (Ok tt, w') ->
  clock w <= clock w'
  /\
  ((exists s, find (Service.has_title name) (sheets w) = Some s
             /\ sheetId s <> 0
             /\ sheets w' = sheets w
             /\ calls w' = (calls w ++ [mkCall (clock w) (get_request env) None])%list)
  \/ (find (Service.has_title name) (sheets w) = None
      /\ sheets w' = (sheets w ++ [headed_sheet env (sheets w)])%list
      /\ exists t1 t2,
          calls w' = (calls w ++ [mkCall (clock w) (get_request env) None;
                                  mkCall t1 (add_request env) None;
                                  mkCall t2 (header_request env) None])%list)).
Proof.
  rewrite ensure_sheet_run. intros H.
  destruct (failure (next_outcome (oracle w))); [discriminate|]. cbv zeta in H.
  unfold resolved in H.
  destruct (find (Service.has_title name) (sheets w)) as [s|] eqn:Hfind.
  - rewrite truthy_num_of_Z in H.
    destruct (Z.eqb_spec (sheetId s) 0) as [Hz|Hz]; cbn [negb] in H.
    + rewrite provision_run in H. cbv zeta in H. cbn [oracle sheets after_call] in H.
      destruct (failure (next_outcome (tl (oracle w)))); [discriminate|].
      rewrite Hfind in H. discriminate.
    + injection H as <-. split; [cbn [clock after_call]; lia|].
      left. exists s. repeat split; auto.
  - cbn [truthy] in H. rewrite provision_run in H. cbv zeta in H.
    cbn [oracle sheets after_call] in H.
    destruct (failure (next_outcome (tl (oracle w)))); [discriminate|].
    rewrite Hfind in H. cbn [oracle logged after_call] in H.
    destruct (failure (next_outcome (tl (tl (oracle w))))); [discriminate|].
    injection H as <-. split; [cbn [clock after_call logged]; lia|].
    right. split; [reflexivity|]. split; [reflexivity|].
    cbn [calls after_call logged clock]. rewrite <- !app_assoc. simpl.
    eexists. eexists. reflexivity.
Qed.

Lemma ensure_sheet_succeeds (w : World) :
  no_failure w -> sheet_absent_or_nonzero env w ->
  exists w', ensure_sheet env w = (Ok tt, w') /\ no_failure w'.
Proof.
  intros Hno Hok. rewrite ensure_sheet_run.
  rewrite (no_failure_next w Hno). cbv zeta. unfold resolved.
  pose proof (no_failure_after_call w (get_request env) (sheets w) None Hno) as Hno1.
  destruct (find (Service.has_title name) (sheets w)) as [s|] eqn:Hfind.
  - rewrite truthy_num_of_Z.
    destruct (Z.eqb_spec (sheetId s) 0) as [Hz|Hz]; [elim (Hok s Hfind Hz)|].
    eexists. split; [reflexivity | exact Hno1].
  - cbn [truthy]. rewrite provision_run. cbv zeta.
    rewrite (no_failure_next _ Hno1). cbn [sheets after_call]. rewrite Hfind.
    set (w1 := logged (after_call w (get_request env) (sheets w) None) _).
    set (ss := (sheets w ++ [new_sheet env (sheets w)])%list).
    assert (Hno2 : no_failure (after_call w1 (add_request env) ss None)).
    { apply no_failure_after_call. exact Hno1. }
    rewrite (no_failure_next _ Hno2).
    eexists. split; [reflexivity|].
    apply no_failure_after_call. exact Hno2.
Qed.

(** What a successful second step leaves. *)
Lemma append_data_ok_inv (data : JsValue) (w w' : World) (u : Updates) :
  append_data env data w = (Ok u, w') ->
  nullish data = false
  /\ exists s, find (Service.has_title name) (sheets w) = Some s
       /\ find (Service.has_title name) (sheets w')
          = Some (Service.append_rows "USER_ENTERED" [row_of (clock w) data] s)
       /\ (forall name', name' <> name ->
             find (Service.has_title name') (sheets w')
             = find (Service.has_title name') (sheets w))
       /\ calls w' = (calls w ++ [mkCall (clock w)
                                    (append_request env (row_of (clock w) data))
                                    None])%list.
Proof.
  intros H. destruct (nullish data) eqn:Hd.
  - unfold append_data, bind in H. rewrite (build_row_nullish data w Hd) in H.
    discriminate.
  - split; [reflexivity|]. rewrite (append_data_run env data w Hd) in H.
    cbv zeta in H. destruct (failure (next_outcome (oracle w))); [discriminate|].
    destruct (Service.append _ _ _ (sheets w)) as [[u0 ss]|e] eqn:Happ; [|discriminate].
    injection H as <- <-.
    destruct (ServiceFacts.append_inv _ _ _ _ _ _ Happ) as (s & H1 & H2 & H3).
    exists s. repeat split; assumption.
Qed.

Lemma append_data_succeeds (data : JsValue) (w : World) (s : Sheet) :
  no_failure w -> nullish data = false -> plain_fields data ->
  find (Service.has_title name) (sheets w) = Some s ->
  exists u w', append_data env data w = (Ok u, w').
Proof.
  intros Hno Hd Hp Hfind. rewrite (append_data_run env data w Hd). cbv zeta.
  rewrite (no_failure_next w Hno).
  destruct (ServiceFacts.append_some name "USER_ENTERED" [row_of (clock w) data]
              (sheets w) s (plain_accepted _ (row_of_plain _ _ Hp)) Hfind) as (ss & ->).
  eexists. eexists. reflexivity.
Qed.

(** A run of [addToCalendar] that returns appended one row to the
    configured sheet, in one append call, the last of the run. *)
Lemma addToCalendar_ok_inv (data : JsValue) (w w' : World) (u : Updates) :
  addToCalendar env data w = (Ok u, w') ->
  nullish data = false
  /\ sheet_absent_or_nonzero env w
  /\ exists t cs,
      calls w' = (calls w ++ cs
                    ++ [mkCall t (append_request env (row_of t data)) None])%list
      /\ clock w <= t
      /\ Forall (fun c => is_append (request c) = false) cs
      /\ sheet_rows name (sheets w')
         = Some (rows_before env w ++ [stored (row_of t data)])%list
      /\ forall name', name' <> name ->
           sheet_rows name' (sheets w') = sheet_rows name' (sheets w).
Proof.
  rewrite addToCalendar_run. unfold addToCalendar_try, bind.
  destruct (ensure_sheet env w) as [[[]|e] w1] eqn:Hens; [|discriminate].
  destruct (append_data env data w1) as [[u1|e] w2] eqn:Happ; [|discriminate].
  intros H. injection H as <- <-.
  destruct (append_data_ok_inv data w1 w2 u1 Happ) as (Hd & s1 & F1 & F2 & F3 & C2).
  split; [exact Hd|].
  destruct (ensure_sheet_ok_inv w w1 Hens)
    as (Hclk & [(s & Hfind & Hz & Hss & C1) | (Hfind & Hss & t1 & t2 & C1)]).
  - split. { intros s0 Hs0. rewrite Hfind in Hs0. injection Hs0 as <-. exact Hz. }
    exists (clock w1), [mkCall (clock w) (get_request env) None].
    rewrite Hss in F1. rewrite Hfind in F1. injection F1 as <-.
    repeat split.
    + rewrite C2, C1. rewrite <- app_assoc. reflexivity.
    + exact Hclk.
    + repeat constructor.
    + unfold sheet_rows, rows_before, sheet_rows. rewrite F2, Hfind. reflexivity.
    + intros name' Hne. unfold sheet_rows. rewrite (F3 name' Hne), Hss. reflexivity.
  - split. { intros s0 Hs0. rewrite Hfind in Hs0. discriminate. }
    exists (clock w1), [mkCall (clock w) (get_request env) None;
                        mkCall t1 (add_request env) None;
                        mkCall t2 (header_request env) None].
    rewrite Hss in F1. rewrite (find_headed_sheet _ Hfind) in F1. injection F1 as <-.
    repeat split.
    + rewrite C2, C1. rewrite <- app_assoc. reflexivity.
    + exact Hclk.
    + repeat constructor.
    + unfold sheet_rows, rows_before, sheet_rows. rewrite F2, Hfind. reflexivity.
    + intros name' Hne. unfold sheet_rows. rewrite (F3 name' Hne), Hss.
      rewrite (find_other_headed name' (sheets w) (headed_sheet env (sheets w)) Hne eq_refl).
      reflexivity.
Qed.

Lemma addToCalendar_succeeds (data : JsValue) (w : World) :
  no_failure w -> sheet_absent_or_nonzero env w -> nullish data = false ->
  plain_fields data ->
  exists u w', addToCalendar env data w = (Ok u, w').
Proof.
  intros Hno Hok Hd Hp. rewrite addToCalendar_run. unfold addToCalendar_try, bind.
  destruct (ensure_sheet_succeeds w Hno Hok) as (w1 & Hens & Hno1).
  rewrite Hens.
  assert (Hs : exists s, find (Service.has_title name) (sheets w1) = Some s).
  { destruct (ensure_sheet_ok_inv w w1 Hens)
      as (_ & [(s & Hfind & _ & Hss & _) | (Hfind & Hss & _)]); rewrite Hss.
    - eauto.
    - rewrite (find_headed_sheet _ Hfind). eauto. }
  destruct Hs as (s & Hs).
  destruct (append_data_succeeds data w1 s Hno1 Hd Hp Hs) as (u & w2 & ->).
  eexists. eexists. reflexivity.
Qed.

End Success.

(** ** The date column *)

Module JsDateFacts.
Import JsDate.

Lemma InLeapYear_cases (y : Z) :
  (InLeapYear y = 1 /\ y mod 4 = 0 /\ (y mod 100 <> 0 \/ y mod 400 = 0))
  \/ (InLeapYear y = 0 /\ (y mod 4 <> 0 \/ (y mod 100 = 0 /\ y mod 400 <> 0))).
Proof.
  unfold InLeapYear.
  destruct (Z.eqb_spec (y mod 4) 0); destruct (Z.eqb_spec (y mod 100) 0);
    destruct (Z.eqb_spec (y mod 400) 0); cbn [andb orb negb]; auto.
Qed.

Ltac reduce_closed t := let v := eval vm_compute in t in change t with v.

(* The goal for the month given by [C : mp = k], with the tests on the
   month decided and the leap year split in two. *)
Ltac month_case C :=
  match type of C with
  | _ = ?k =>
      rewrite C in *;
      reduce_closed (k <? 10); cbv iota;
      reduce_closed (k + 3); reduce_closed (k - 9);
      match goal with |- context [?m <=? 2] => reduce_closed (m <=? 2) end;
      cbv iota;
      match goal with |- context [DaysBeforeMonth (?m + 1)] => reduce_closed (m + 1) end;
      cbv [DaysBeforeMonth];
      try match goal with |- context [InLeapYear ?y] =>
            destruct (InLeapYear_cases y) as [(-> & ?)|(-> & ?)] end
  end.

(** The year of [civil] is the year the day falls in. *)
Lemma civil_year (n : Z) :
  let y := fst (fst (civil n)) in
  DayFromYear y <= n < DayFromYear (y + 1).
Proof.
  cbv zeta. unfold civil, DayFromYear. cbv zeta.
  set (z := n + 719468).
  set (era := z / 146097).
  set (doe := z mod 146097).
  assert (Hz : z = 146097 * era + doe /\ 0 <= doe < 146097).
  { subst era doe. split; [apply Z.div_mod; lia | apply Z.mod_pos_bound; lia]. }
  clearbody era doe.
  set (yoe := (doe - doe / 1460 + doe / 36524 - doe / 146096) / 365).
  set (doy := doe - (365 * yoe + yoe / 4 - yoe / 100)).
  set (mp := (5 * doy + 2) / 153).
  cbn [fst snd].
  destruct (Z.ltb_spec mp 10) as [Hmp|Hmp].
  - destruct (Z.leb_spec (mp + 3) 2) as [Hm|Hm];
      subst mp doy yoe z; Z.div_mod_to_equations; lia.
  - destruct (Z.leb_spec (mp - 9) 2) as [Hm|Hm];
      subst mp doy yoe z; Z.div_mod_to_equations; lia.
Qed.

(** The month and the day of [civil] are those of the calendar: the
    day number is the first day of the year, plus the days of the
    months before, plus the day of the month, which lies within its
    month. *)
Lemma civil_month_day (n : Z) :
  let y := fst (fst (civil n)) in
  let m := snd (fst (civil n)) in
  let d := snd (civil n) in
  1 <= m <= 12 /\ 1 <= d
  /\ n = DayFromYear y + DaysBeforeMonth m (InLeapYear y) + d - 1
  /\ DaysBeforeMonth m (InLeapYear y) + d <= DaysBeforeMonth (m + 1) (InLeapYear y).
Proof.
  cbv zeta. unfold civil, DayFromYear. cbv zeta.
  set (z := n + 719468).
  set (era := z / 146097).
  set (doe := z mod 146097).
  assert (Hz : z = 146097 * era + doe /\ 0 <= doe < 146097).
  { subst era doe. split; [apply Z.div_mod; lia | apply Z.mod_pos_bound; lia]. }
  clearbody era doe.
  set (yoe := (doe - doe / 1460 + doe / 36524 - doe / 146096) / 365).
  set (doy := doe - (365 * yoe + yoe / 4 - yoe / 100)).
  set (mp := (5 * doy + 2) / 153).
  assert (Hmp : 0 <= mp <= 11) by (subst mp doy yoe; Z.div_mod_to_equations; lia).
  cbn [fst snd].
  assert (C : mp = 0 \/ mp = 1 \/ mp = 2 \/ mp = 3 \/ mp = 4 \/ mp = 5 \/ mp = 6
              \/ mp = 7 \/ mp = 8 \/ mp = 9 \/ mp = 10 \/ mp = 11) by lia.
  clear Hmp.
  repeat (destruct C as [C|C];
          [month_case C; subst mp doy yoe z; Z.div_mod_to_equations; lia|]).
  month_case C; subst mp doy yoe z; Z.div_mod_to_equations; lia.
Qed.

(** The same for a time value: year, month and day of the month of
    [t] are those of the UTC day [t] falls in. *)
Lemma date_of_time (t : Z) :
  let y := YearFromTime t in
  let m := MonthFromTime t + 1 in
  let d := DateFromTime t in
  DayFromYear y <= Day t < DayFromYear (y + 1)
  /\ 1 <= m <= 12 /\ 1 <= d
  /\ Day t = DayFromYear y + DaysBeforeMonth m (InLeapYear y) + d - 1
  /\ DaysBeforeMonth m (InLeapYear y) + d <= DaysBeforeMonth (m + 1) (InLeapYear y)
  /\ msPerDay * Day t <= t < msPerDay * (Day t + 1).
Proof.
  cbv zeta. unfold YearFromTime, MonthFromTime, DateFromTime.
  replace (snd (fst (civil (Day t))) - 1 + 1) with (snd (fst (civil (Day t)))) by lia.
  split; [exact (civil_year (Day t))|].
  destruct (civil_month_day (Day t)) as (Hm & Hd & Hn & Hle).
  repeat split; try tauto.
  - unfold Day, msPerDay. Z.div_mod_to_equations. lia.
  - unfold Day, msPerDay. Z.div_mod_to_equations. lia.
Qed.

Lemma occurs_append (c : ascii) (a b : string) :
  occurs c (a ++ b) = occurs c a || occurs c b.
Proof.
  induction a as [|x a IH]; simpl; [reflexivity|].
  rewrite IH. apply orb_assoc.
Qed.

Lemma split_head_append (c : ascii) (a b : string) :
  occurs c a = false -> split_head c (a ++ String c b) = a.
Proof.
  induction a as [|x a IH]; simpl.
  - intros _. rewrite Ascii.eqb_refl. reflexivity.
  - intros H. apply orb_false_elim in H. destruct H as [Hx Ha].
    rewrite Hx, (IH Ha). reflexivity.
Qed.

Lemma digit_is_not_T (d : Z) : 0 <= d < 10 -> Ascii.eqb (digit d) "T" = false.
Proof.
  intros H.
  assert (C : d = 0 \/ d = 1 \/ d = 2 \/ d = 3 \/ d = 4 \/ d = 5 \/ d = 6
              \/ d = 7 \/ d = 8 \/ d = 9) by lia.
  repeat (destruct C as [->|C]; [reflexivity|]). subst d. reflexivity.
Qed.

Lemma pad_has_no_T (width : nat) (n : Z) : occurs "T" (pad width n) = false.
Proof.
  revert n. induction width as [|w IH]; intros n; [reflexivity|].
  cbn [pad]. rewrite occurs_append, IH. cbn [occurs orb].
  rewrite digit_is_not_T; [reflexivity|]. apply Z.mod_pos_bound. lia.
Qed.

Lemma year_string_has_no_T (y : Z) : occurs "T" (year_string y) = false.
Proof.
  unfold year_string. destruct ((0 <=? y) && (y <=? 9999)).
  - apply pad_has_no_T.
  - rewrite occurs_append, pad_has_no_T. destruct (y <? 0); reflexivity.
Qed.

Lemma date_string_has_no_T (t : Z) : occurs "T" (date_string t) = false.
Proof.
  unfold date_string.
  rewrite !occurs_append, year_string_has_no_T, !pad_has_no_T. reflexivity.
Qed.

(** The date part of the ISO string: year, month and day of the
    month, joined by hyphens. *)
Lemma today_date_string (t : Z) : today t = date_string t.
Proof.
  unfold today, toISOString. apply split_head_append. apply date_string_has_no_T.
Qed.

(** For the years 0 to 9999 the year takes four digits. *)
Lemma today_four_digit_year (t : Z) :
  0 <= YearFromTime t <= 9999 ->
  today t = pad 4 (YearFromTime t) ++ "-" ++ pad 2 (MonthFromTime t + 1)
            ++ "-" ++ pad 2 (DateFromTime t).
Proof.
  intros [H0 H1]. rewrite today_date_string. unfold date_string, year_string.
  destruct (Z.leb_spec 0 (YearFromTime t)); [|lia].
  destruct (Z.leb_spec (YearFromTime t) 9999); [|lia].
  reflexivity.
Qed.

(** The time values of the years 0000 to 9999. *)
Lemma year_in_range (t : Z) :
  -62167219200000 <= t < 253402300800000 <-> 0 <= YearFromTime t <= 9999.
Proof.
  unfold YearFromTime.
  assert (Hn : 86400000 * Day t <= t < 86400000 * (Day t + 1)).
  { unfold Day, msPerDay. Z.div_mod_to_equations. lia. }
  generalize (civil_year (Day t)). cbv zeta.
  generalize dependent (Day t). intros n Hn.
  generalize (fst (fst (civil n))). intros y H.
  unfold DayFromYear in H.
  split; intros; Z.div_mod_to_equations; lia.
Qed.

Ltac reduce_sum_in G :=
  match type of G with
  | context [DaysBeforeMonth (?a + 1)] =>
      let v := eval vm_compute in (a + 1) in change (a + 1) with v in G
  end.

Lemma day_of_month_bound (m leap d : Z) :
  1 <= m <= 12 -> 0 <= leap <= 1 ->
  DaysBeforeMonth m leap + d <= DaysBeforeMonth (m + 1) leap -> d <= 31.
Proof.
  intros Hm Hl H.
  assert (C : m = 1 \/ m = 2 \/ m = 3 \/ m = 4 \/ m = 5 \/ m = 6 \/ m = 7 \/ m = 8
              \/ m = 9 \/ m = 10 \/ m = 11 \/ m = 12) by lia.
  assert (G : forall k, m = k ->
               DaysBeforeMonth k leap + d <= DaysBeforeMonth (k + 1) leap) by
    (intros k <-; exact H).
  repeat (destruct C as [C|C];
          [specialize (G _ C); reduce_sum_in G;
           cbv [DaysBeforeMonth] in G; lia|]).
  specialize (G _ C). reduce_sum_in G. cbv [DaysBeforeMonth] in G. lia.
Qed.

Lemma InLeapYear_bound (y : Z) : 0 <= InLeapYear y <= 1.
Proof. destruct (InLeapYear_cases y) as [(-> & _)|(-> & _)]; lia. Qed.

End JsDateFacts.

(** ** The model of the date against the calendar of the specification *)

Module GregorianFacts.
Import JsDate Gregorian.

Lemma InLeapYear_leap_year (y : Z) : InLeapYear y = if leap_year y then 1 else 0.
Proof. reflexivity. Qed.

Lemma days_in_year_step (y : Z) : DayFromYear (y + 1) - DayFromYear y = days_in_year y.
Proof.
  unfold days_in_year, leap_year, DayFromYear.
  destruct (Z.eqb_spec (y mod 4) 0); destruct (Z.eqb_spec (y mod 100) 0);
    destruct (Z.eqb_spec (y mod 400) 0); cbn [andb orb negb];
    Z.div_mod_to_equations; lia.
Qed.

Lemma total_days_in_year (a : Z) (n : nat) :
  total days_in_year a n = DayFromYear (a + Z.of_nat n) - DayFromYear a.
Proof.
  revert a. induction n as [|n IH]; intros a.
  - cbn [total]. replace (a + Z.of_nat 0) with a by lia. lia.
  - cbn [total]. rewrite IH, <- days_in_year_step.
    replace (a + 1 + Z.of_nat n) with (a + Z.of_nat (S n)) by lia. lia.
Qed.

Lemma days_before_year_DayFromYear (y : Z) : days_before_year y = DayFromYear y.
Proof.
  assert (E : DayFromYear 1970 = 0) by reflexivity.
  unfold days_before_year. destruct (Z.leb_spec 1970 y) as [H|H];
    rewrite total_days_in_year.
  - replace (1970 + Z.of_nat (Z.to_nat (y - 1970))) with y by lia. lia.
  - replace (y + Z.of_nat (Z.to_nat (1970 - y))) with 1970 by lia. lia.
Qed.

Lemma days_before_month_DaysBeforeMonth (leap : bool) (m : Z) :
  1 <= m <= 13 ->
  days_before_month leap m = DaysBeforeMonth m (if leap then 1 else 0).
Proof.
  intros Hm.
  assert (C : m = 1 \/ m = 2 \/ m = 3 \/ m = 4 \/ m = 5 \/ m = 6 \/ m = 7 \/ m = 8
              \/ m = 9 \/ m = 10 \/ m = 11 \/ m = 12 \/ m = 13) by lia.
  repeat (destruct C as [->|C]; [destruct leap; reflexivity|]).
  subst m. destruct leap; reflexivity.
Qed.

Lemma days_before_next_month (leap : bool) (m : Z) :
  1 <= m <= 12 ->
  days_before_month leap (m + 1) = days_before_month leap m + days_in_month leap m.
Proof.
  intros Hm.
  assert (C : m = 1 \/ m = 2 \/ m = 3 \/ m = 4 \/ m = 5 \/ m = 6 \/ m = 7 \/ m = 8
              \/ m = 9 \/ m = 10 \/ m = 11 \/ m = 12) by lia.
  repeat (destruct C as [->|C]; [destruct leap; reflexivity|]).
  subst m. destruct leap; reflexivity.
Qed.

Lemma digit_numeral (d : Z) : 0 <= d < 10 -> digit d = numeral d.
Proof.
  intros H.
  assert (C : d = 0 \/ d = 1 \/ d = 2 \/ d = 3 \/ d = 4 \/ d = 5 \/ d = 6
              \/ d = 7 \/ d = 8 \/ d = 9) by lia.
  repeat (destruct C as [->|C]; [reflexivity|]). subst d. reflexivity.
Qed.

Lemma pad_two_digits (n : Z) : 0 <= n < 100 -> pad 2 n = two_digits n.
Proof.
  intros H. unfold two_digits. cbn [pad]. cbn [append].
  rewrite !digit_numeral by (apply Z.mod_pos_bound; lia).
  replace (n / 10 mod 10) with (n / 10) by (Z.div_mod_to_equations; lia).
  reflexivity.
Qed.

Lemma pad_four_digits (n : Z) : 0 <= n < 10000 -> pad 4 n = four_digits n.
Proof.
  intros H. unfold four_digits, two_digits. cbn [pad]. cbn [append].
  rewrite !digit_numeral by (apply Z.mod_pos_bound; lia).
  replace (n / 10 / 10 / 10 mod 10) with (n / 100 / 10)
    by (Z.div_mod_to_equations; lia).
  replace (n / 10 / 10 mod 10) with ((n / 100) mod 10)
    by (Z.div_mod_to_equations; lia).
  replace (n / 10 mod 10) with (n mod 100 / 10) by (Z.div_mod_to_equations; lia).
  replace (n mod 10) with ((n mod 100) mod 10) by (Z.div_mod_to_equations; lia).
  reflexivity.
Qed.

(** Year, month and day of the month of the model are a date of the
    calendar, and the day of the time value is the day that date
    counts to. *)
Lemma model_date (t : Z) :
  let y := YearFromTime t in
  let m := MonthFromTime t + 1 in
  let d := DateFromTime t in
  is_date y m d = true /\ day_number y m d = Day t.
Proof.
  cbv zeta.
  destruct (JsDateFacts.date_of_time t) as (_ & Hm & Hd & E & Hle & _).
  rewrite InLeapYear_leap_year in E, Hle.
  rewrite <- (days_before_month_DaysBeforeMonth _ (MonthFromTime t + 1)) in E, Hle
    by lia.
  rewrite <- (days_before_month_DaysBeforeMonth _ (MonthFromTime t + 1 + 1)) in Hle
    by lia.
  rewrite (days_before_next_month _ _ Hm) in Hle.
  split.
  - unfold is_date.
    destruct (Z.leb_spec 1 (MonthFromTime t + 1)); [|lia].
    destruct (Z.leb_spec (MonthFromTime t + 1) 12); [|lia].
    destruct (Z.leb_spec 1 (DateFromTime t)); [|lia].
    destruct (Z.leb_spec (DateFromTime t)
                (days_in_month (leap_year (YearFromTime t)) (MonthFromTime t + 1)));
      [reflexivity | lia].
  - unfold day_number. rewrite days_before_year_DayFromYear. lia.
Qed.

(** The default date of the program is the date of the
    specification. *)
Lemma today_utc_date (t : Z) : four_digit_years t -> utc_date t (today t).
Proof.
  intros Ht. unfold four_digit_years in Ht.
  pose proof (proj1 (JsDateFacts.year_in_range t) Ht) as Hy.
  destruct (model_date t) as (Hdate & Hday).
  destruct (JsDateFacts.date_of_time t) as (_ & Hm & Hd & _ & Hle & Hin).
  pose proof (JsDateFacts.day_of_month_bound _ _ _ Hm
                (JsDateFacts.InLeapYear_bound _) Hle) as Hd31.
  exists (YearFromTime t), (MonthFromTime t + 1), (DateFromTime t).
  split; [exact Hy|]. split; [exact Hdate|]. split.
  - rewrite Hday. exact Hin.
  - rewrite (JsDateFacts.today_four_digit_year t Hy). unfold YYYY_MM_DD.
    rewrite pad_four_digits by lia. rewrite !pad_two_digits by lia. reflexivity.
Qed.

End GregorianFacts.

Example utc_date_sample : utc_date 1762128000120 "2025-11-03".
Proof.
  exists 2025, 11, 3. split; [lia|]. split; [reflexivity|].
  split; [vm_compute; split; [discriminate | reflexivity] | reflexivity].
Qed.

Example today_1970 : today 0 = "1970-01-01".
Proof. reflexivity. Qed.

Example today_leap_day : today 1709251199999 = "2024-02-29".
Proof. reflexivity. Qed.

Example today_end_of_year : today 1767225599999 = "2025-12-31".
Proof. reflexivity. Qed.

Example toISOString_sample :
  JsDate.toISOString 1762128000123 = "2025-11-03T00:00:00.123Z".
Proof. reflexivity. Qed.

(** ** Valid requests *)

Lemma valid_payload_shape (req_body : JsValue) :
  valid_payload req_body ->
  nullish req_body = false
  /\ truthy (prop req_body "event") = true
  /\ truthy (prop req_body "data") = true
  /\ strict_eq_string (prop req_body "event") "schedule_appointment" = true.
Proof.
  intros (He & Hn & _).
  destruct (truthy_prop_object _ _ Hn) as (fields & Hd).
  rewrite He, Hd. repeat split.
  destruct req_body; try reflexivity; discriminate He.
Qed.

Lemma webhook_valid (env : Env) (depth : nat) (req_body : JsValue) (w : World) :
  loggable depth req_body ->
  valid_payload req_body ->
  webhook env depth req_body w =
    match addToCalendar env (prop req_body "data") (logged w (log_incoming req_body)) with
    | (Ok _, w1) => (Ok success_response, w1)
    | (Throw e, w1) =>
        (Ok (failure_response (message e)), logged w1 (error_stack "Webhook Error:" e))
    end.
Proof.
  intros Hl Hv. destruct (valid_payload_shape req_body Hv) as (Hb & He & Hd & Hs).
  destruct Hv as (_ & Hn & Hm).
  rewrite (webhook_run env depth req_body w Hl Hb). cbv zeta.
  rewrite He, Hd, Hs, Hn, Hm. reflexivity.
Qed.

(** A request answered 200 passed the three checks, and its run is a
    run of [addToCalendar] that returned. *)
Lemma webhook_success_inv (env : Env) (depth : nat) (req_body : JsValue)
    (w : World) (r : Response) :
  fst (webhook env depth req_body w) = Ok r ->
  status r = 200 ->
  valid_payload req_body
  /\ loggable depth req_body
  /\ exists u,
      addToCalendar env (prop req_body "data") (logged w (log_incoming req_body))
      = (Ok u, snd (webhook env depth req_body w)).
Proof.
  intros Hr Hs.
  pose proof (webhook_answered env depth req_body w r Hr) as Hl.
  destruct (nullish req_body) eqn:Hb.
  - rewrite (webhook_nullish env depth req_body w Hb) in Hr. simpl in Hr.
    injection Hr as <-. discriminate Hs.
  - rewrite (webhook_run env depth req_body w Hl Hb) in Hr |- *. cbv zeta in Hr |- *.
    destruct (truthy (prop req_body "event")) eqn:He;
      [|simpl in Hr; injection Hr as <-; discriminate Hs].
    destruct (truthy (prop req_body "data")) eqn:Hd;
      [|simpl in Hr; injection Hr as <-; discriminate Hs].
    cbn [negb orb] in Hr |- *.
    destruct (strict_eq_string (prop req_body "event") "schedule_appointment") eqn:Heq;
      [|simpl in Hr; injection Hr as <-; discriminate Hs].
    cbn [negb] in Hr |- *.
    destruct (truthy (prop (prop req_body "data") "name")) eqn:Hn;
      [|simpl in Hr; injection Hr as <-; discriminate Hs].
    destruct (truthy (prop (prop req_body "data") "email")) eqn:Hm;
      [|simpl in Hr; injection Hr as <-; discriminate Hs].
    cbn [negb orb] in Hr |- *.
    destruct (addToCalendar env _ _) as [[u|e] w1];
      [|simpl in Hr; injection Hr as <-; discriminate Hs].
    split; [|split; [exact Hl|]].
    + repeat split; auto. now apply strict_eq_string_true.
    + exists u. reflexivity.
Qed.

(** C1, as stated, fails: a valid request is answered 500, and no row
    is appended, when the metadata read fails. *)
Lemma valid_request_fails_with_backend :
  let w := world_with [mkSheet 5 "Calendar" [header_cells]] [failing invalid_credentials] in
  valid_payload jane
  /\ fst (webhook default_env sample_depth jane w)
     = Ok (failure_response
             "Failed to update spreadsheet: invalid_grant: Invalid JWT Signature.")
  /\ sheets (snd (webhook default_env sample_depth jane w)) = sheets w
  /\ ~ (forall w0, fst (webhook default_env sample_depth jane w0) = Ok success_response).
Proof.
  cbv zeta. split; [repeat split|]. split; [reflexivity|]. split; [reflexivity|].
  intros H.
  specialize (H (world_with [mkSheet 5 "Calendar" [header_cells]]
                   [failing invalid_credentials])).
  discriminate H.
Qed.

(** A field that is an array or an object is truthy and passes the
    checks, but the service takes no such value for a cell: the
    append is rejected and the request answered 500. *)
Example array_for_a_name_is_rejected :
  let req_body :=
    JObj [("event", JStr "schedule_appointment");
          ("data", JObj [("name", JArr [JStr "Jane"; JStr "Doe"]);
                         ("email", JStr "jane@example.com")])] in
  let w := world_with [mkSheet 5 "Calendar" [header_cells]] [] in
  valid_payload req_body
  /\ status_of (fst (webhook default_env sample_depth req_body w)) = Some 500
  /\ sheets (snd (webhook default_env sample_depth req_body w)) = sheets w.
Proof. cbv zeta. split; [repeat split|]. split; reflexivity. Qed.

(** C1, amended: for a request whose [event] is
    ["schedule_appointment"] and whose [data.name] and [data.email]
    are truthy, when the log of the body on arrival returns, the
    fields that go to the row are strings, booleans or finite
    numbers, no remote call is made to fail and the configured sheet
    is absent or has an identifier other than 0, the answer is 200
    with the success body, the run ends with the one append call it
    makes, which sends the row
    [[date, time, name, email, description]] with [USER_ENTERED], and
    the configured sheet gains exactly that row, the other sheets
    keeping their rows. *)
Theorem valid_request_appends_one_row (env : Env) (depth : nat) (req_body : JsValue)
    (w : World) :
  loggable depth req_body ->
  valid_payload req_body ->
  plain_fields (prop req_body "data") ->
  no_failure w ->
  sheet_absent_or_nonzero env w ->
  let data := prop req_body "data" in
  exists w' t cs,
    let row := [js_or (prop data "date") (JStr (today t));
                js_or (prop data "time") (JStr "12:00");
                prop data "name";
                prop data "email";
                js_or (prop data "description") (JStr EmptyString)] in
    webhook env depth req_body w
    = (Ok {| status := 200;
             body := JObj [("success", JBool true);
                           ("message", JStr "Event added to calendar")] |}, w')
    /\ calls w' = (calls w ++ cs ++ [mkCall t (append_request env row) None])%list
    /\ Forall (fun c => is_append (request c) = false) cs
    /\ sheet_rows (SHEET_NAME env) (sheets w')
       = Some (rows_before env w ++ [map (entered "USER_ENTERED") row])%list
    /\ forall name', name' <> SHEET_NAME env ->
         sheet_rows name' (sheets w') = sheet_rows name' (sheets w).
Proof.
  intros Hl Hv Hp Hno Hok data.
  destruct (valid_payload_shape req_body Hv) as (_ & _ & Hd & _).
  rewrite (webhook_valid env depth req_body w Hl Hv). fold data.
  destruct (addToCalendar_succeeds env data (logged w (log_incoming req_body)))
    as (u & w1 & Hrun);
    [exact Hno | exact Hok | exact (truthy_not_nullish _ Hd) | exact Hp |].
  rewrite Hrun.
  destruct (addToCalendar_ok_inv env data _ _ _ Hrun)
    as (_ & _ & t & cs & Hc & _ & Hcs & Hrows & Hother).
  exists w1, t, cs. cbv zeta.
  split; [reflexivity|]. split; [exact Hc|]. split; [exact Hcs|].
  split; [|exact Hother].
  rewrite Hrows. rewrite (plain_stored _ (row_of_plain t data Hp)). reflexivity.
Qed.

Lemma valid_request_appends_one_row_witness :
  let w := world_with [mkSheet 0 "Sheet1" []; mkSheet 5 "Calendar" [header_cells]] [slow] in
  (loggable sample_depth jane /\ valid_payload jane /\ plain_fields (prop jane "data")
   /\ no_failure w /\ sheet_absent_or_nonzero default_env w)
  /\ exists w',
      webhook default_env sample_depth jane w = (Ok success_response, w')
      /\ sheet_rows "Calendar" (sheets w')
         = Some [map (entered "USER_ENTERED")
                   [JStr "Date"; JStr "Time"; JStr "Name"; JStr "Email";
                    JStr "Description"];
                 map (entered "USER_ENTERED")
                   [JStr "2025-11-03"; JStr "12:00"; JStr "Jane Doe";
                    JStr "jane@example.com"; JStr EmptyString]].
Proof.
  cbv zeta.
  assert (Hl : loggable sample_depth jane) by (vm_compute; lia).
  assert (Hv : valid_payload jane) by (repeat split).
  assert (Hp : plain_fields (prop jane "data")).
  { split; [reflexivity|]. split; [reflexivity|].
    intros k Hk H.
    destruct Hk as [<-|[<-|[<-|[]]]]; vm_compute in H; discriminate H. }
  assert (Hno : no_failure
                  (world_with [mkSheet 0 "Sheet1" []; mkSheet 5 "Calendar" [header_cells]]
                     [slow])) by (repeat constructor).
  assert (Hok : sheet_absent_or_nonzero default_env
                  (world_with [mkSheet 0 "Sheet1" []; mkSheet 5 "Calendar" [header_cells]]
                     [slow])).
  { intros s Hs. injection Hs as <-. discriminate. }
  split; [exact (conj Hl (conj Hv (conj Hp (conj Hno Hok))))|].
  destruct (valid_request_appends_one_row default_env sample_depth jane _
              Hl Hv Hp Hno Hok)
    as (w' & t & cs & Hrun & _).
  exists w'. split; [exact Hrun|].
  vm_compute in Hrun. injection Hrun as <-. reflexivity.
Defined.

(** The scenario of the spec: no ["Calendar"] tab yet. *)
Example first_request_creates_the_sheet :
  let run := webhook default_env sample_depth jane empty_world in
  fst run = Ok success_response
  /\ sheets (snd run)
     = [mkSheet 0 "Sheet1" [];
        mkSheet 1 "Calendar"
          [header_cells;
           stored [JStr "2025-11-03"; JStr "12:00"; JStr "Jane Doe";
                   JStr "jane@example.com"; JStr EmptyString]]]
  /\ map request (calls (snd run))
     = [get_request default_env; add_request default_env;
        header_request default_env;
        append_request default_env
          [JStr "2025-11-03"; JStr "12:00"; JStr "Jane Doe";
           JStr "jane@example.com"; JStr EmptyString]].
Proof. repeat split; reflexivity. Qed.

(** ** Defaults *)

(** The row of a request answered 200: the run ends with the append
    of [row_of t data], issued at time [t], and that row is the last
    of the configured sheet. *)
Lemma appended_row (env : Env) (depth : nat) (req_body : JsValue) (w : World)
    (r : Response) :
  fst (webhook env depth req_body w) = Ok r ->
  status r = 200 ->
  let data := prop req_body "data" in
  let w' := snd (webhook env depth req_body w) in
  exists t cs,
    calls w' = (calls w ++ cs ++ [mkCall t (append_request env (row_of t data)) None])%list
    /\ clock w <= t
    /\ sheet_rows (SHEET_NAME env) (sheets w')
       = Some (rows_before env w ++ [stored (row_of t data)])%list.
Proof.
  intros Hr Hs. cbv zeta.
  destruct (webhook_success_inv env depth req_body w r Hr Hs) as (_ & _ & u & Hrun).
  destruct (addToCalendar_ok_inv env _ _ _ _ Hrun)
    as (_ & _ & t & cs & Hc & Hclk & _ & Hrows & _).
  exists t, cs. repeat split; assumption.
Qed.

(** The last call of a record of calls. *)
Lemma last_call (before cs : list Call) (c c' : Call) (l : list Call) :
  (l ++ [c'] = before ++ cs ++ [c])%list -> c = c'.
Proof.
  rewrite app_assoc. intros H. apply app_inj_tail in H. symmetry. exact (proj2 H).
Qed.

(** C3: in the row of a request answered 200, sent with the append
    issued at the time [t] and kept as the last row of the sheet, an
    omitted [data.date] gives the date column the UTC date of [t]
    written YYYY-MM-DD ([t] within the years 0000 to 9999, the date
    being that of the calendar, leap years included); an omitted
    [data.time] gives the time column ["12:00"]; an omitted
    [data.description] gives the description column the empty
    string. *)
Theorem omitted_fields_take_defaults (env : Env) (depth : nat) (req_body : JsValue)
    (w : World) (r : Response) :
  fst (webhook env depth req_body w) = Ok r ->
  status r = 200 ->
  let data := prop req_body "data" in
  let w' := snd (webhook env depth req_body w) in
  exists t cs row cells,
    calls w' = (calls w ++ cs ++ [mkCall t (append_request env row) None])%list
    /\ clock w <= t
    /\ sheet_rows (SHEET_NAME env) (sheets w') = Some (rows_before env w ++ [cells])%list
    /\ (prop data "date" = JUndefined ->
        exists date,
          nth_error row 0 = Some (JStr date)
          /\ nth_error cells 0 = Some (entered "USER_ENTERED" (JStr date))
          /\ (four_digit_years t -> utc_date t date))
    /\ (prop data "time" = JUndefined ->
        nth_error row 1 = Some (JStr "12:00")
        /\ nth_error cells 1 = Some (entered "USER_ENTERED" (JStr "12:00")))
    /\ (prop data "description" = JUndefined ->
        nth_error row 4 = Some (JStr EmptyString)
        /\ nth_error cells 4 = Some (entered "USER_ENTERED" (JStr EmptyString))).
Proof.
  intros Hr Hs data w'.
  destruct (appended_row env depth req_body w r Hr Hs) as (t & cs & Hc & Hclk & Hrows).
  exists t, cs, (row_of t data), (stored (row_of t data)).
  fold data in Hc, Hrows. fold w' in Hc, Hrows.
  split; [exact Hc|]. split; [exact Hclk|]. split; [exact Hrows|].
  unfold stored, row_of. cbn [map nth_error]. split; [|split].
  - intros H. rewrite H. exists (today t).
    split; [reflexivity|]. split; [reflexivity|].
    apply GregorianFacts.today_utc_date.
  - intros H. rewrite H. split; reflexivity.
  - intros H. rewrite H. split; reflexivity.
Qed.

Lemma omitted_fields_take_defaults_witness :
  let w := world_with [mkSheet 5 "Calendar" [header_cells]] [slow] in
  let w' := snd (webhook default_env sample_depth jane w) in
  (fst (webhook default_env sample_depth jane w) = Ok success_response
   /\ status success_response = 200)
  /\ exists t row cells,
      calls w' = [mkCall 1762128000000 (get_request default_env) None;
                  mkCall t (append_request default_env row) None]
      /\ t = 1762128000120
      /\ sheet_rows "Calendar" (sheets w') = Some [header_cells; cells]
      /\ nth_error row 0 = Some (JStr "2025-11-03")
      /\ nth_error cells 0 = Some (entered "USER_ENTERED" (JStr "2025-11-03"))
      /\ utc_date t "2025-11-03"
      /\ nth_error cells 1 = Some (entered "USER_ENTERED" (JStr "12:00"))
      /\ nth_error cells 4 = Some (entered "USER_ENTERED" (JStr EmptyString)).
Proof.
  cbv zeta. split; [split; reflexivity|].
  destruct (omitted_fields_take_defaults default_env sample_depth jane
              (world_with [mkSheet 5 "Calendar" [header_cells]] [slow])
              success_response eq_refl eq_refl)
    as (t & cs & row & cells & Hcalls & _ & Hrows & Hdate & Htime & Hdesc).
  destruct (Hdate eq_refl) as (date & Hcol & Hcell & Hutc).
  pose proof (last_call _ _ _
                (mkCall 1762128000120
                   (append_request default_env
                      [JStr "2025-11-03"; JStr "12:00"; JStr "Jane Doe";
                       JStr "jane@example.com"; JStr EmptyString]) None)
                [mkCall 1762128000000 (get_request default_env) None] Hcalls)
    as Hlast.
  unfold append_request in Hlast. injection Hlast as Ht Hrow.
  exists t, row, cells. split; [rewrite Ht, Hrow; reflexivity|].
  split; [exact Ht|]. split; [exact Hrows|].
  assert (Hd : date = "2025-11-03").
  { rewrite Hrow in Hcol. injection Hcol as Hcol. symmetry. exact Hcol. }
  rewrite <- Hd.
  split; [exact Hcol|]. split; [exact Hcell|].
  split; [apply Hutc; rewrite Ht; unfold four_digit_years; lia|].
  split; [exact (proj2 (Htime eq_refl)) | exact (proj2 (Hdesc eq_refl))].
Defined.

(** C10: the defaults replace every falsy value, present or not: in
    the row of a request answered 200, sent with the append issued at
    the time [t] and kept as the last row of the sheet, a falsy
    [data.date] gives the UTC date of [t] written YYYY-MM-DD ([t]
    within the years 0000 to 9999), a falsy [data.time] gives
    ["12:00"] and a falsy [data.description] gives the empty string,
    whatever the value supplied. *)
Theorem falsy_fields_take_defaults (env : Env) (depth : nat) (req_body : JsValue)
    (w : World) (r : Response) :
  fst (webhook env depth req_body w) = Ok r ->
  status r = 200 ->
  let data := prop req_body "data" in
  let w' := snd (webhook env depth req_body w) in
  exists t cs row cells,
    calls w' = (calls w ++ cs ++ [mkCall t (append_request env row) None])%list
    /\ clock w <= t
    /\ sheet_rows (SHEET_NAME env) (sheets w') = Some (rows_before env w ++ [cells])%list
    /\ (truthy (prop data "date") = false ->
        exists date,
          nth_error row 0 = Some (JStr date)
          /\ nth_error cells 0 = Some (entered "USER_ENTERED" (JStr date))
          /\ (four_digit_years t -> utc_date t date))
    /\ (truthy (prop data "time") = false ->
        nth_error row 1 = Some (JStr "12:00")
        /\ nth_error cells 1 = Some (entered "USER_ENTERED" (JStr "12:00")))
    /\ (truthy (prop data "description") = false ->
        nth_error row 4 = Some (JStr EmptyString)
        /\ nth_error cells 4 = Some (entered "USER_ENTERED" (JStr EmptyString))).
Proof.
  intros Hr Hs data w'.
  destruct (appended_row env depth req_body w r Hr Hs) as (t & cs & Hc & Hclk & Hrows).
  exists t, cs, (row_of t data), (stored (row_of t data)).
  fold data in Hc, Hrows. fold w' in Hc, Hrows.
  split; [exact Hc|]. split; [exact Hclk|]. split; [exact Hrows|].
  unfold stored, row_of. cbn [map nth_error]. split; [|split].
  - intros H. rewrite (js_or_falsy _ _ H). exists (today t).
    split; [reflexivity|]. split; [reflexivity|].
    apply GregorianFacts.today_utc_date.
  - intros H. rewrite (js_or_falsy _ _ H). split; reflexivity.
  - intros H. rewrite (js_or_falsy _ _ H). split; reflexivity.
Qed.

Lemma falsy_fields_take_defaults_witness :
  let w := world_with [mkSheet 5 "Calendar" [header_cells]] [slow] in
  let w' := snd (webhook default_env sample_depth falsy_optionals w) in
  (fst (webhook default_env sample_depth falsy_optionals w) = Ok success_response
   /\ status success_response = 200)
  /\ exists t row cells,
      calls w' = [mkCall 1762128000000 (get_request default_env) None;
                  mkCall t (append_request default_env row) None]
      /\ t = 1762128000120
      /\ sheet_rows "Calendar" (sheets w') = Some [header_cells; cells]
      /\ nth_error row 0 = Some (JStr "2025-11-03")
      /\ nth_error cells 0 = Some (entered "USER_ENTERED" (JStr "2025-11-03"))
      /\ utc_date t "2025-11-03"
      /\ nth_error cells 1 = Some (entered "USER_ENTERED" (JStr "12:00"))
      /\ nth_error cells 4 = Some (entered "USER_ENTERED" (JStr EmptyString)).
Proof.
  cbv zeta. split; [split; reflexivity|].
  destruct (falsy_fields_take_defaults default_env sample_depth falsy_optionals
              (world_with [mkSheet 5 "Calendar" [header_cells]] [slow])
              success_response eq_refl eq_refl)
    as (t & cs & row & cells & Hcalls & _ & Hrows & Hdate & Htime & Hdesc).
  destruct (Hdate eq_refl) as (date & Hcol & Hcell & Hutc).
  pose proof (last_call _ _ _
                (mkCall 1762128000120
                   (append_request default_env
                      [JStr "2025-11-03"; JStr "12:00"; JStr "Jane Doe";
                       JStr "jane@example.com"; JStr EmptyString]) None)
                [mkCall 1762128000000 (get_request default_env) None] Hcalls)
    as Hlast.
  unfold append_request in Hlast. injection Hlast as Ht Hrow.
  exists t, row, cells. split; [rewrite Ht, Hrow; reflexivity|].
  split; [exact Ht|]. split; [exact Hrows|].
  assert (Hd : date = "2025-11-03").
  { rewrite Hrow in Hcol. injection Hcol as Hcol. symmetry. exact Hcol. }
  rewrite <- Hd.
  split; [exact Hcol|]. split; [exact Hcell|].
  split; [apply Hutc; rewrite Ht; unfold four_digit_years; lia|].
  split; [exact (proj2 (Htime eq_refl)) | exact (proj2 (Hdesc eq_refl))].
Defined.

(** ** The provisioner *)

(** C6, as stated, fails: when the request that creates the sheet
    fails, the provisioner stops there and writes no header. *)
Lemma header_not_written_after_failed_creation :
  let w := world_with [mkSheet 0 "Sheet1" []] [failing invalid_credentials] in
  let w' := snd (provision default_env w) in
  new_calls w w'
  = [mkCall 1762128000000 (add_request default_env) (Some invalid_credentials)]
  /\ existsb (fun c => is_update (request c)) (new_calls w w') = false
  /\ sheet_rows "Calendar" (sheets w') = None.
Proof. repeat split; reflexivity. Qed.

(** C6, amended: the provisioner issues one batched request, the
    first call of its run, that adds a sheet of the configured name
    with 1000 rows and 10 columns; when that request fails nothing
    follows; when it succeeds the one call that follows writes the
    header row to [A1:E1] of that sheet with [USER_ENTERED], and when
    this write succeeds too the sheet holds the header as its only
    row, entered with that option. *)
Theorem provisioner_requests (env : Env) (w : World) :
  let w' := snd (provision env w) in
  let creation :=
    SpreadsheetsBatchUpdate (SPREADSHEET_ID env) [addSheet (SHEET_NAME env) 1000 10] in
  let header :=
    ValuesUpdate (SPREADSHEET_ID env) (SHEET_NAME env ++ "!A1:E1") "USER_ENTERED"
      [[JStr "Date"; JStr "Time"; JStr "Name"; JStr "Email"; JStr "Description"]] in
  (exists e,
      new_calls w w' = [mkCall (clock w) creation (Some e)]
      /\ fst (provision env w) = Throw e)
  \/ (exists t err,
        new_calls w w' = [mkCall (clock w) creation None; mkCall t header err]
        /\ match err with
           | Some e => fst (provision env w) = Throw e
           | None => fst (provision env w) = Ok tt
                     /\ sheet_rows (SHEET_NAME env) (sheets w')
                        = Some [map (entered "USER_ENTERED")
                                  [JStr "Date"; JStr "Time"; JStr "Name";
                                   JStr "Email"; JStr "Description"]]
           end).
Proof.
  cbv zeta. rewrite provision_run. cbv zeta.
  destruct (failure (next_outcome (oracle w))) as [e|].
  { left. exists e. split; [|reflexivity]. apply new_calls_app. reflexivity. }
  destruct (find (Service.has_title (SHEET_NAME env)) (sheets w)) as [s|] eqn:Hfind.
  { left. eexists. split; [|reflexivity]. apply new_calls_app. reflexivity. }
  right. cbn [oracle after_call logged].
  destruct (failure (next_outcome (tl (oracle w)))) as [e|].
  - eexists. exists (Some e). split; [|reflexivity].
    apply new_calls_app. cbn [calls after_call logged snd]. rewrite <- app_assoc.
    reflexivity.
  - eexists. exists None. split; [|split; [reflexivity|]].
    + apply new_calls_app. cbn [calls after_call logged snd]. rewrite <- app_assoc.
      reflexivity.
    + cbn [sheets after_call snd]. unfold sheet_rows.
      rewrite (find_headed_sheet env _ Hfind). reflexivity.
Qed.

(** ** Provisioning when the sheet exists *)

Lemma fresh_sheetId_positive (ss : list Sheet) : 1 <= Service.fresh_sheetId ss.
Proof.
  unfold Service.fresh_sheetId.
  assert (0 <= fold_right Z.max 0 (map sheetId ss)); [|lia].
  induction ss as [|s ss IH]; simpl; lia.
Qed.

(** A sheet found under an identifier other than 0 is not created
    again and its header is not written again, whatever else happens
    in the run. *)
Lemma found_sheet_is_not_provisioned (env : Env) (data : JsValue) (w : World)
    (s : Sheet) :
  find (Service.has_title (SHEET_NAME env)) (sheets w) = Some s ->
  sheetId s <> 0 ->
  Forall (fun c => is_addSheet (request c) = false /\ is_update (request c) = false)
    (new_calls w (snd (addToCalendar env data w))).
Proof.
  intros Hfind Hz. rewrite addToCalendar_run. unfold addToCalendar_try, bind.
  rewrite ensure_sheet_run.
  destruct (failure (next_outcome (oracle w))) as [e|].
  { rewrite (new_calls_app w _ [mkCall (clock w) (get_request env) (Some e)])
      by reflexivity.
    repeat constructor. }
  cbv zeta. unfold resolved. rewrite Hfind, truthy_num_of_Z.
  destruct (Z.eqb_spec (sheetId s) 0) as [H0|_]; [contradiction|]. cbn [negb].
  set (w1 := after_call w (get_request env) (sheets w) None).
  destruct (nullish data) eqn:Hd.
  - unfold append_data, bind. rewrite (build_row_nullish data w1 Hd).
    rewrite (new_calls_app w _ [mkCall (clock w) (get_request env) None])
      by reflexivity.
    repeat constructor.
  - rewrite (append_data_run env data w1 Hd). cbv zeta.
    destruct (failure (next_outcome (oracle w1))) as [e|].
    { erewrite new_calls_app.
      2:{ cbn [snd calls reported after_call w1]. rewrite <- app_assoc. reflexivity. }
      repeat constructor. }
    destruct (Service.append _ _ _ (sheets w1)) as [[u ss]|e].
    + erewrite new_calls_app.
      2:{ cbn [snd calls logged after_call w1]. rewrite <- app_assoc. reflexivity. }
      repeat constructor.
    + erewrite new_calls_app.
      2:{ cbn [snd calls reported after_call w1]. rewrite <- app_assoc. reflexivity. }
      repeat constructor.
Qed.

(** C4 on the code: a sheet that exists under the identifier 0 is
    taken as not found.  For a valid request whose log on arrival
    returns, with no call made to fail, the provisioner runs, the
    request that adds the sheet is rejected for the duplicate name,
    and the request is answered 500 with no row appended. *)
Theorem sheet_with_id_zero_is_created_again (env : Env) (depth : nat)
    (req_body : JsValue) (w : World) (s : Sheet) :
  loggable depth req_body ->
  valid_payload req_body ->
  no_failure w ->
  find (Service.has_title (SHEET_NAME env)) (sheets w) = Some s ->
  sheetId s = 0 ->
  let w' := snd (webhook env depth req_body w) in
  fst (getSheetId env (SHEET_NAME env) w) = Ok (JNum (num_of_Z 0))
  /\ new_calls w w'
     = [mkCall (clock w) (get_request env) None;
        mkCall (clock w + Z.of_N (elapsed (next_outcome (oracle w))))
          (add_request env) (Some (Service.duplicate_title (SHEET_NAME env)))]
  /\ fst (webhook env depth req_body w)
     = Ok (failure_response
             ("Failed to update spreadsheet: "
              ++ message (Service.duplicate_title (SHEET_NAME env))))
  /\ sheets w' = sheets w.
Proof.
  intros Hl Hv Hno Hfind Hz. cbv zeta. split.
  { rewrite getSheetId_run, (no_failure_next w Hno). unfold resolved.
    rewrite Hfind, Hz. reflexivity. }
  rewrite (webhook_valid env depth req_body w Hl Hv).
  rewrite addToCalendar_run. unfold addToCalendar_try, bind.
  rewrite ensure_sheet_run. cbn [oracle sheets logged].
  rewrite (no_failure_next w Hno). cbv zeta. unfold resolved.
  rewrite Hfind, Hz. cbn [num_of_Z truthy].
  rewrite provision_run. cbv zeta. cbn [oracle sheets logged after_call].
  assert (Hno1 : failure (next_outcome (tl (oracle w))) = None).
  { apply (no_failure_next (after_call w (get_request env) (sheets w) None)).
    apply no_failure_after_call. exact Hno. }
  rewrite Hno1, Hfind. cbv zeta.
  split; [|split; reflexivity].
  apply new_calls_app. cbn [snd calls logged reported after_call clock].
  rewrite <- app_assoc. reflexivity.
Qed.

Lemma sheet_with_id_zero_is_created_again_witness :
  (loggable sample_depth jane /\ valid_payload jane /\ no_failure renamed_first_tab
   /\ find (Service.has_title "Calendar") (sheets renamed_first_tab)
      = Some (mkSheet 0 "Calendar" [header_cells])
   /\ sheetId (mkSheet 0 "Calendar" [header_cells]) = 0)
  /\ status_of (fst (webhook default_env sample_depth jane renamed_first_tab)) = Some 500
  /\ map request (new_calls renamed_first_tab
                    (snd (webhook default_env sample_depth jane renamed_first_tab)))
     = [get_request default_env; add_request default_env].
Proof.
  assert (Hl : loggable sample_depth jane) by (vm_compute; lia).
  assert (Hv : valid_payload jane) by (repeat split).
  assert (Hno : no_failure renamed_first_tab) by constructor.
  split; [repeat split; assumption|].
  destruct (sheet_with_id_zero_is_created_again default_env sample_depth jane
              renamed_first_tab (mkSheet 0 "Calendar" [header_cells])
              Hl Hv Hno eq_refl eq_refl)
    as (_ & Hcalls & Hanswer & _).
  rewrite Hcalls, Hanswer. split; reflexivity.
Defined.

(** Two requests in a row on a spreadsheet without the sheet: the
    second finds the sheet the first created. *)
Example second_request_finds_the_sheet :
  let w1 := snd (webhook default_env sample_depth jane empty_world) in
  let run := webhook default_env sample_depth jane w1 in
  fst run = Ok success_response
  /\ map request (new_calls w1 (snd run))
     = [get_request default_env;
        append_request default_env (row_of 1762128000000 (prop jane "data"))]
  /\ sheet_rows "Calendar" (sheets (snd run))
     = Some [header_cells; stored (row_of 1762128000000 (prop jane "data"));
             stored (row_of 1762128000000 (prop jane "data"))].
Proof. repeat split; reflexivity. Qed.

(** * Further properties of the handler *)

(** ** Answers *)

(** The handler answers unless its first statement throws.  The log
    of the body on arrival is ahead of the [try]: when the body is
    nested deeper than [JSON.stringify] handles, the [RangeError]
    leaves the handler, which sends no answer, logs nothing and makes
    no remote call.  In every other case no exception leaves it, and
    the answer is the success body, one of the three rejections, or
    the 500 body with some [details]. *)
Theorem handler_answers_unless_log_throws (env : Env) (depth : nat)
    (req_body : JsValue) (w : World) :
  ((nesting req_body <= depth)%nat ->
   exists r,
     fst (webhook env depth req_body w) = Ok r
     /\ (r = success_response
         \/ r = rejection "Missing event or data"
         \/ r = rejection "Unsupported event type"
         \/ r = rejection "Missing required fields"
         \/ exists details, r = failure_response details))
  /\ ((depth < nesting req_body)%nat ->
      webhook env depth req_body w
      = (Throw (new_Error "Maximum call stack size exceeded"), w)).
Proof.
  split.
  - intros Hl. change (loggable depth req_body) in Hl.
    destruct (nullish req_body) eqn:Hb.
    + rewrite (webhook_nullish env depth req_body w Hb). cbv zeta.
      eexists. split; [reflexivity|]. do 4 right. eexists. reflexivity.
    + rewrite (webhook_run env depth req_body w Hl Hb). cbv zeta.
      destruct (negb (truthy (prop req_body "event"))
                || negb (truthy (prop req_body "data")));
        [eexists; split; [reflexivity | auto]|].
      destruct (negb (strict_eq_string (prop req_body "event") "schedule_appointment"));
        [eexists; split; [reflexivity | auto]|].
      destruct (negb (truthy (prop (prop req_body "data") "name"))
                || negb (truthy (prop (prop req_body "data") "email")));
        [eexists; split; [reflexivity | auto 6]|].
      destruct (addToCalendar env _ _) as [[u|e] w1];
        eexists; (split; [reflexivity|]); [auto | do 4 right; eexists; reflexivity].
  - intros Hd. apply webhook_too_deep. unfold loggable. lia.
Qed.

Lemma handler_answers_unless_log_throws_witness :
  let deep :=
    JObj [("event", JStr "schedule_appointment");
          ("data", JObj [("name", JStr "Jane Doe"); ("email", JStr "jane@example.com");
                         ("description", nested 1000 (JArr []))])] in
  (sample_depth < nesting deep)%nat
  /\ webhook default_env sample_depth deep empty_world
     = (Throw (new_Error "Maximum call stack size exceeded"), empty_world).
Proof.
  cbv zeta.
  match goal with
  | |- (_ < nesting ?b)%nat /\ _ =>
      assert (Hd : (sample_depth < nesting b)%nat) by (vm_compute; lia);
      split; [exact Hd|];
      exact (proj2 (handler_answers_unless_log_throws default_env sample_depth b
                      empty_world) Hd)
  end.
Defined.

(** A request without a body ([req.body] is [undefined] or [null])
    fails at the destructuring inside the [try]: it is answered 500,
    not 400, and no remote call is made. *)
Theorem missing_body_is_server_error (env : Env) (depth : nat) (req_body : JsValue)
    (w : World) :
  nullish req_body = true ->
  let w' := snd (webhook env depth req_body w) in
  (exists details, fst (webhook env depth req_body w) = Ok (failure_response details))
  /\ new_calls w w' = []
  /\ sheets w' = sheets w.
Proof.
  intros Hb. rewrite (webhook_nullish env depth req_body w Hb). cbv zeta.
  split; [eexists; reflexivity|]. split; [|reflexivity].
  apply new_calls_same. reflexivity.
Qed.

Lemma missing_body_is_server_error_witness :
  nullish JUndefined = true
  /\ status_of (fst (webhook default_env sample_depth JUndefined empty_world)) = Some 500
  /\ new_calls empty_world (snd (webhook default_env sample_depth JUndefined empty_world)) = [].
Proof.
  split; [reflexivity|].
  destruct (missing_body_is_server_error default_env sample_depth JUndefined
              empty_world eq_refl)
    as ((details & Hr) & Hc & _).
  split; [rewrite Hr; reflexivity | exact Hc].
Defined.

(** Whether a request is rejected, and with which message, depends on
    its body alone: not on the configuration, the spreadsheet, the
    clock or the failures to come. *)
Theorem rejection_depends_on_body_only (env env' : Env) (depth : nat)
    (req_body : JsValue) (w w' : World) (msg : string) :
  fst (webhook env depth req_body w) = Ok (rejection msg) ->
  fst (webhook env' depth req_body w') = Ok (rejection msg).
Proof.
  intros Hr. pose proof (webhook_answered env depth req_body w _ Hr) as Hl.
  revert Hr.
  destruct (nullish req_body) eqn:Hb.
  - rewrite (webhook_nullish env depth req_body w Hb). cbv zeta. discriminate.
  - rewrite (webhook_run env depth req_body w Hl Hb), (webhook_run env' depth req_body w' Hl Hb).
    cbv zeta.
    destruct (negb (truthy (prop req_body "event"))
              || negb (truthy (prop req_body "data"))); [auto|].
    destruct (negb (strict_eq_string (prop req_body "event") "schedule_appointment"));
      [auto|].
    destruct (negb (truthy (prop (prop req_body "data") "name"))
              || negb (truthy (prop (prop req_body "data") "email"))); [auto|].
    destruct (addToCalendar env _ _) as [[u|e] w1]; discriminate.
Qed.

Lemma rejection_depends_on_body_only_witness :
  fst (webhook default_env sample_depth empty_name empty_world)
  = Ok (rejection "Missing required fields")
  /\ fst (webhook (mkEnv None (Some "Agenda")) sample_depth empty_name
            renamed_first_tab)
     = Ok (rejection "Missing required fields").
Proof.
  split; [reflexivity|].
  exact (rejection_depends_on_body_only default_env (mkEnv None (Some "Agenda"))
           sample_depth empty_name empty_world renamed_first_tab
           "Missing required fields" eq_refl).
Defined.

(** ** Errors of [addToCalendar] *)

(** Whatever makes the [try] block of [addToCalendar] throw, a failed
    remote call or a [TypeError] on the payload, what leaves the
    function is a new error whose message is the fixed prefix followed
    by the message of the cause, without sub-errors; the message of
    the cause and of each of its sub-errors is on the console. *)
Theorem addToCalendar_throws_wrapped (env : Env) (data : JsValue) (w w' : World)
    (e : JsError) :
  addToCalendar env data w = (Throw e, w') ->
  exists cause,
    fst (addToCalendar_try env data w) = Throw cause
    /\ message e = "Failed to update spreadsheet: " ++ message cause
    /\ errors e = None
    /\ In (error_line "Sheets API Error:" (message cause)) (console w')
    /\ forall sub, In sub (sub_errors cause) -> In (error_line "-" sub) (console w').
Proof.
  rewrite addToCalendar_run.
  destruct (addToCalendar_try env data w) as [[u|cause] w1]; [discriminate|].
  intros H. injection H as <- <-. exists cause.
  split; [reflexivity|]. split; [reflexivity|]. split; [reflexivity|].
  split.
  - simpl. apply in_or_app. right. left. reflexivity.
  - intros sub Hsub. simpl. apply in_or_app. right. right.
    apply in_map. exact Hsub.
Qed.

Lemma addToCalendar_throws_wrapped_witness :
  addToCalendar default_env JNull
    (world_with [mkSheet 5 "Calendar" [header_cells]] [])
  = (Throw (wrapped (cannot_read JNull "date")),
     reported (after_call (world_with [mkSheet 5 "Calendar" [header_cells]] [])
                 (get_request default_env) [mkSheet 5 "Calendar" [header_cells]] None)
       (cannot_read JNull "date"))
  /\ exists cause,
      message (wrapped (cannot_read JNull "date"))
      = "Failed to update spreadsheet: " ++ message cause.
Proof.
  split; [reflexivity|].
  destruct (addToCalendar_throws_wrapped default_env JNull
              (world_with [mkSheet 5 "Calendar" [header_cells]] []) _ _ eq_refl)
    as (cause & _ & Hm & _).
  exists cause. exact Hm.
Defined.

(** ** Every way a run can go *)

(** The five ways the first step can go: the metadata read fails; the
    sheet is found; the creation fails; the header write fails, the
    new sheet staying without rows; the sheet is created and headed. *)
Lemma ensure_sheet_cases (env : Env) (w w1 : World) (r : Result unit) :
  ensure_sheet env w = (r, w1) ->
  let get := get_request env in
  let add := add_request env in
  let header := header_request env in
  (exists e, r = Throw e /\ sheets w1 = sheets w
             /\ calls w1 = (calls w ++ [mkCall (clock w) get (Some e)])%list)
  \/ (r = Ok tt /\ sheets w1 = sheets w
      /\ calls w1 = (calls w ++ [mkCall (clock w) get None])%list)
  \/ (exists e t, r = Throw e /\ sheets w1 = sheets w
                  /\ calls w1 = (calls w ++ [mkCall (clock w) get None;
                                             mkCall t add (Some e)])%list)
  \/ (exists e t t',
         r = Throw e
         /\ find (Service.has_title (SHEET_NAME env)) (sheets w) = None
         /\ sheets w1 = (sheets w ++ [new_sheet env (sheets w)])%list
         /\ calls w1 = (calls w ++ [mkCall (clock w) get None; mkCall t add None;
                                    mkCall t' header (Some e)])%list)
  \/ (exists t t',
         r = Ok tt
         /\ find (Service.has_title (SHEET_NAME env)) (sheets w) = None
         /\ sheets w1 = (sheets w ++ [headed_sheet env (sheets w)])%list
         /\ calls w1 = (calls w ++ [mkCall (clock w) get None; mkCall t add None;
                                    mkCall t' header None])%list).
Proof.
  rewrite ensure_sheet_run. cbv zeta.
  destruct (failure (next_outcome (oracle w))) as [e|].
  { intros H. injection H as <- <-. left. exists e. repeat split. }
  destruct (truthy (resolved (SHEET_NAME env) (sheets w))).
  { intros H. injection H as <- <-. right. left. repeat split. }
  rewrite provision_run. cbv zeta. cbn [oracle sheets after_call logged].
  destruct (failure (next_outcome (tl (oracle w)))) as [e|].
  { intros H. injection H as <- <-. right. right. left. exists e. eexists.
    split; [reflexivity|]. split; [reflexivity|].
    cbn [calls after_call logged]. rewrite <- app_assoc. reflexivity. }
  destruct (find (Service.has_title (SHEET_NAME env)) (sheets w)) as [s|] eqn:Hfind.
  { intros H. injection H as <- <-. right. right. left. eexists. eexists.
    split; [reflexivity|]. split; [reflexivity|].
    cbn [calls after_call logged]. rewrite <- app_assoc. reflexivity. }
  destruct (failure (next_outcome (tl (tl (oracle w))))) as [e|].
  - intros H. injection H as <- <-. do 3 right. left. exists e. eexists. eexists.
    split; [reflexivity|]. split; [reflexivity|]. split; [reflexivity|].
    cbn [calls after_call logged]. rewrite <- !app_assoc. reflexivity.
  - intros H. injection H as <- <-. do 4 right. eexists. eexists.
    split; [reflexivity|]. split; [reflexivity|]. split; [reflexivity|].
    cbn [calls after_call logged]. rewrite <- !app_assoc. reflexivity.
Qed.

(** The three ways the second step can go: the payload cannot be
    read; the append fails; the append succeeds. *)
Lemma append_data_cases (env : Env) (data : JsValue) (w w2 : World)
    (r : Result Updates) :
  append_data env data w = (r, w2) ->
  let req := append_request env (row_of (clock w) data) in
  (exists e, r = Throw e /\ nullish data = true /\ w2 = w)
  \/ (exists e, r = Throw e /\ sheets w2 = sheets w
                /\ calls w2 = (calls w ++ [mkCall (clock w) req (Some e)])%list)
  \/ (exists u, r = Ok u
                /\ calls w2 = (calls w ++ [mkCall (clock w) req None])%list).
Proof.
  destruct (nullish data) eqn:Hd.
  - unfold append_data, bind. rewrite (build_row_nullish data w Hd).
    intros H. injection H as <- <-. left. eexists. repeat split.
  - rewrite (append_data_run env data w Hd). cbv zeta.
    destruct (failure (next_outcome (oracle w))) as [e|].
    { intros H. injection H as <- <-. right. left. exists e. repeat split. }
    destruct (Service.append _ _ _ (sheets w)) as [[u ss]|e].
    + intros H. injection H as <- <-. right. right. exists u. repeat split.
    + intros H. injection H as <- <-. right. left. exists e. repeat split.
Qed.

(** The nine ways a run of [addToCalendar] can go, with the calls made
    and what became of the sheets.  [found] is the run that skips the
    provisioner, [created] the run whose provisioner went through. *)
Lemma addToCalendar_outcomes (env : Env) (data : JsValue) (w w' : World)
    (r : Result Updates) :
  addToCalendar env data w = (r, w') ->
  let name := SHEET_NAME env in
  let get := mkCall (clock w) (get_request env) in
  let add t := mkCall t (add_request env) in
  let header t := mkCall t (header_request env) in
  let append t := mkCall t (append_request env (row_of t data)) in
  let created := (sheets w ++ [headed_sheet env (sheets w)])%list in
  exists cs,
    calls w' = (calls w ++ cs)%list
    /\ ((exists e, r = Throw (wrapped e) /\ sheets w' = sheets w /\ cs = [get (Some e)])
        \/ (exists e, r = Throw (wrapped e) /\ sheets w' = sheets w
                      /\ nullish data = true /\ cs = [get None])
        \/ (exists e t, r = Throw (wrapped e) /\ sheets w' = sheets w
                        /\ cs = [get None; append t (Some e)])
        \/ (exists u t, r = Ok u /\ cs = [get None; append t None])
        \/ (exists e t, r = Throw (wrapped e) /\ sheets w' = sheets w
                        /\ cs = [get None; add t (Some e)])
        \/ (exists e t t',
               r = Throw (wrapped e) /\ find (Service.has_title name) (sheets w) = None
               /\ sheets w' = (sheets w ++ [new_sheet env (sheets w)])%list
               /\ cs = [get None; add t None; header t' (Some e)])
        \/ (exists e t t',
               r = Throw (wrapped e) /\ find (Service.has_title name) (sheets w) = None
               /\ sheets w' = created /\ nullish data = true
               /\ cs = [get None; add t None; header t' None])
        \/ (exists e t t' t'',
               r = Throw (wrapped e) /\ find (Service.has_title name) (sheets w) = None
               /\ sheets w' = created
               /\ cs = [get None; add t None; header t' None; append t'' (Some e)])
        \/ (exists u t t' t'',
               r = Ok u
               /\ cs = [get None; add t None; header t' None; append t'' None])).
Proof.
  rewrite addToCalendar_run. unfold addToCalendar_try, bind. cbv zeta.
  destruct (ensure_sheet env w) as [r1 w1] eqn:H1.
  destruct (ensure_sheet_cases env w w1 r1 H1)
    as [(e & -> & S1 & C1) | [(-> & S1 & C1) | [(e & t & -> & S1 & C1)
        | [(e & t & t' & -> & F1 & S1 & C1) | (t & t' & -> & F1 & S1 & C1)]]]].
  - intros H. injection H as <- <-. eexists. split; [exact C1|].
    left. exists e. repeat split. exact S1.
  - destruct (append_data env data w1) as [r2 w2] eqn:H2.
    destruct (append_data_cases env data w1 w2 r2 H2)
      as [(e & -> & Hd & ->) | [(e & -> & S2 & C2) | (u & -> & C2)]].
    + intros H. injection H as <- <-. eexists. split; [exact C1|].
      right. left. exists e. repeat split; assumption.
    + intros H. injection H as <- <-. eexists.
      split; [cbn [calls reported]; rewrite C2, C1, <- app_assoc; reflexivity|].
      do 2 right. left. exists e, (clock w1). repeat split.
      cbn [sheets reported]. congruence.
    + intros H. injection H as <- <-. eexists.
      split; [rewrite C2, C1, <- app_assoc; reflexivity|].
      do 3 right. left. exists u, (clock w1). repeat split.
  - intros H. injection H as <- <-. eexists. split; [exact C1|].
    do 4 right. left. exists e, t. repeat split. exact S1.
  - intros H. injection H as <- <-. eexists. split; [exact C1|].
    do 5 right. left. exists e, t, t'. repeat split; assumption.
  - destruct (append_data env data w1) as [r2 w2] eqn:H2.
    destruct (append_data_cases env data w1 w2 r2 H2)
      as [(e & -> & Hd & ->) | [(e & -> & S2 & C2) | (u & -> & C2)]].
    + intros H. injection H as <- <-. eexists. split; [exact C1|].
      do 6 right. left. exists e, t, t'. repeat split; assumption.
    + intros H. injection H as <- <-. eexists.
      split; [cbn [calls reported]; rewrite C2, C1, <- app_assoc; reflexivity|].
      do 7 right. left. exists e, t, t', (clock w1). repeat split; try assumption.
      cbn [sheets reported]. congruence.
    + intros H. injection H as <- <-. eexists.
      split; [rewrite C2, C1, <- app_assoc; reflexivity|].
      do 8 right. exists u, t, t', (clock w1). repeat split.
Qed.

(** A request either stops before the spreadsheet is touched, at the
    log of its body or at the checks, or is a run of [addToCalendar]
    on [data] whose result decides the answer. *)
Lemma webhook_outcome (env : Env) (depth : nat) (req_body : JsValue) (w : World) :
  let w' := snd (webhook env depth req_body w) in
  (calls w' = calls w /\ sheets w' = sheets w
   /\ forall r, fst (webhook env depth req_body w) = Ok r -> status r <> 200)
  \/ (valid_payload req_body
      /\ exists r1 w1,
          addToCalendar env (prop req_body "data") (logged w (log_incoming req_body))
          = (r1, w1)
          /\ calls w' = calls w1 /\ sheets w' = sheets w1
          /\ fst (webhook env depth req_body w)
             = match r1 with
               | Ok _ => Ok success_response
               | Throw e => Ok (failure_response (message e))
               end).
Proof.
  cbv zeta. destruct (loggable_dec depth req_body) as [Hl|Hl].
  2:{ rewrite (webhook_too_deep env depth req_body w Hl). left.
      repeat split. intros r Hr. discriminate Hr. }
  destruct (nullish req_body) eqn:Hb.
  { rewrite (webhook_nullish env depth req_body w Hb). cbv zeta. left.
    repeat split. intros r Hr. injection Hr as <-. discriminate. }
  rewrite (webhook_run env depth req_body w Hl Hb). cbv zeta.
  destruct (truthy (prop req_body "event")) eqn:He;
    [|left; repeat split; intros r Hr; injection Hr as <-; discriminate].
  destruct (truthy (prop req_body "data")) eqn:Hd;
    [|left; repeat split; intros r Hr; injection Hr as <-; discriminate].
  cbn [negb orb].
  destruct (strict_eq_string (prop req_body "event") "schedule_appointment") eqn:Heq;
    [|left; repeat split; intros r Hr; injection Hr as <-; discriminate].
  cbn [negb].
  destruct (truthy (prop (prop req_body "data") "name")) eqn:Hn;
    [|left; repeat split; intros r Hr; injection Hr as <-; discriminate].
  destruct (truthy (prop (prop req_body "data") "email")) eqn:Hm;
    [|left; repeat split; intros r Hr; injection Hr as <-; discriminate].
  cbn [negb orb]. right. split.
  { repeat split; auto. now apply strict_eq_string_true. }
  destruct (addToCalendar env _ _) as [[u|e] w1];
    eexists; eexists; repeat split.
Qed.



(** The remote calls of a request, in order, are the start of one of
    two sequences: metadata read, append; or metadata read, sheet
    creation, header write, append.  So there are at most four, all
    on the configured spreadsheet and sheet, the append comes last and
    only once, and only the last call made can have failed. *)
Theorem calls_of_a_request (env : Env) (depth : nat) (req_body : JsValue)
    (w : World) :
  let cs := new_calls w (snd (webhook env depth req_body w)) in
  let data := prop req_body "data" in
  let get := SpreadsheetsGet (SPREADSHEET_ID env) "sheets(properties(sheetId,title))" in
  let add :=
    SpreadsheetsBatchUpdate (SPREADSHEET_ID env) [addSheet (SHEET_NAME env) 1000 10] in
  let header :=
    ValuesUpdate (SPREADSHEET_ID env) (SHEET_NAME env ++ "!A1:E1") "USER_ENTERED"
      [header_row] in
  let append t :=
    ValuesAppend (SPREADSHEET_ID env) (SHEET_NAME env ++ "!A:E") "USER_ENTERED"
      "INSERT_ROWS" [row_of t data] in
  (map request cs = []
   \/ map request cs = [get]
   \/ (exists t, map request cs = [get; append t])
   \/ map request cs = [get; add]
   \/ map request cs = [get; add; header]
   \/ (exists t, map request cs = [get; add; header; append t]))
  /\ Forall (fun c => raised c = None) (removelast cs).
Proof.
  cbv zeta.
  destruct (webhook_outcome env depth req_body w)
    as [(C & _) | (_ & r1 & w1 & Hrun & C & _)].
  { rewrite (new_calls_same _ _ C). split; [left; reflexivity | constructor]. }
  destruct (addToCalendar_outcomes env _ _ _ _ Hrun) as (cs & Hcs & Hcases).
  cbv zeta in Hcases. cbn [calls logged] in Hcs.
  rewrite <- C in Hcs. rewrite (new_calls_app _ _ _ Hcs).
  destruct Hcases
    as [(e & _ & _ & ->) | [(e & _ & _ & _ & ->) | [(e & t & _ & _ & ->)
        | [(u & t & _ & ->) | [(e & t & _ & _ & ->)
        | [(e & t & t' & _ & _ & _ & ->) | [(e & t & t' & _ & _ & _ & _ & ->)
        | [(e & t & t' & t'' & _ & _ & _ & ->) | (u & t & t' & t'' & _ & ->)]]]]]]]];
    cbn [map request removelast]; (split; [|repeat constructor]).
  - right. left. reflexivity.
  - right. left. reflexivity.
  - do 2 right. left. exists t. reflexivity.
  - do 2 right. left. exists t. reflexivity.
  - do 3 right. left. reflexivity.
  - do 4 right. left. reflexivity.
  - do 4 right. left. reflexivity.
  - do 5 right. exists t''. reflexivity.
  - do 5 right. exists t''. reflexivity.
Qed.

(** ** Requests in a row *)

Lemma append_data_ok_world (env : Env) (data : JsValue) (w w' : World) (u : Updates) :
  append_data env data w = (Ok u, w') ->
  clock w <= clock w' /\ oracle w' = tl (oracle w).
Proof.
  intros H. destruct (nullish data) eqn:Hd.
  - unfold append_data, bind in H. rewrite (build_row_nullish data w Hd) in H.
    discriminate.
  - rewrite (append_data_run env data w Hd) in H. cbv zeta in H.
    destruct (failure (next_outcome (oracle w))); [discriminate|].
    destruct (Service.append _ _ _ (sheets w)) as [[u0 ss]|e]; [|discriminate].
    injection H as <- <-. cbn [clock oracle logged after_call]. split; [lia|reflexivity].
Qed.

Lemma no_failure_tl (w w' : World) :
  no_failure w -> oracle w' = tl (oracle w) -> no_failure w'.
Proof.
  unfold no_failure. intros H ->. destruct (oracle w) as [|o os]; simpl; [auto|].
  inversion H. assumption.
Qed.

(** When no call fails and the sheet is absent or has an identifier
    other than 0, a run of [addToCalendar] returns, appends its row
    with its last call, and leaves a world in which the same holds. *)
Lemma addToCalendar_succeeds_full (env : Env) (data : JsValue) (w : World) :
  no_failure w -> sheet_absent_or_nonzero env w -> nullish data = false ->
  plain_fields data ->
  exists u w' t cs,
    addToCalendar env data w = (Ok u, w')
    /\ no_failure w' /\ sheet_absent_or_nonzero env w'
    /\ clock w <= t <= clock w'
    /\ calls w' = (calls w ++ cs
                     ++ [mkCall t (append_request env (row_of t data)) None])%list
    /\ Forall (fun c => is_append (request c) = false) cs
    /\ (sheet_rows (SHEET_NAME env) (sheets w) <> None ->
        cs = [mkCall (clock w) (get_request env) None])
    /\ sheet_rows (SHEET_NAME env) (sheets w')
       = Some (rows_before env w ++ [map (entered "USER_ENTERED") (row_of t data)])%list.
Proof.
  intros Hno Hok Hd Hp. rewrite addToCalendar_run. unfold addToCalendar_try, bind.
  destruct (ensure_sheet_succeeds env w Hno Hok) as (w1 & Hens & Hno1).
  rewrite Hens.
  destruct (ensure_sheet_ok_inv env w w1 Hens) as (Hclk & Hcases).
  assert (Hs : exists s cs,
             find (Service.has_title (SHEET_NAME env)) (sheets w1) = Some s
             /\ sheetId s <> 0
             /\ rows s = rows_before env w
             /\ calls w1 = (calls w ++ cs)%list
             /\ Forall (fun c => is_append (request c) = false) cs
             /\ (sheet_rows (SHEET_NAME env) (sheets w) <> None ->
                 cs = [mkCall (clock w) (get_request env) None])).
  { destruct Hcases as [(s & Hfind & Hz & Hss & C1) | (Hfind & Hss & t1 & t2 & C1)];
      rewrite Hss.
    - exists s. eexists. split; [exact Hfind|]. split; [exact Hz|].
      split; [unfold rows_before, sheet_rows; rewrite Hfind; reflexivity|].
      split; [exact C1|]. split; [repeat constructor | reflexivity].
    - rewrite (find_headed_sheet env _ Hfind). eexists. eexists.
      split; [reflexivity|]. split.
      { cbn [sheetId headed_sheet]. pose proof (fresh_sheetId_positive (sheets w)). lia. }
      split; [unfold rows_before, sheet_rows; rewrite Hfind; reflexivity|].
      split; [exact C1|]. split; [repeat constructor|].
      intros Habs. elim Habs. unfold sheet_rows. rewrite Hfind. reflexivity. }
  destruct Hs as (s & cs & Hs & Hz & Hrows & C1 & Hcs & Hfound).
  destruct (append_data_succeeds env data w1 s Hno1 Hd Hp Hs) as (u & w2 & Happ).
  rewrite Happ.
  destruct (append_data_ok_inv env data w1 w2 u Happ) as (_ & s' & F1 & F2 & _ & C2).
  destruct (append_data_ok_world env data w1 w2 u Happ) as (Hclk2 & Ho).
  rewrite Hs in F1. injection F1 as <-.
  exists u, w2, (clock w1), cs. split; [reflexivity|].
  split; [exact (no_failure_tl w1 w2 Hno1 Ho)|].
  split.
  { intros s0 Hs0. rewrite F2 in Hs0. injection Hs0 as <-. exact Hz. }
  split; [lia|].
  split; [rewrite C2, C1, <- app_assoc; reflexivity|].
  split; [exact Hcs|]. split; [exact Hfound|].
  unfold sheet_rows. rewrite F2. cbn [option_map rows Service.append_rows].
  rewrite Hrows. rewrite <- (plain_stored _ (row_of_plain (clock w1) data Hp)).
  reflexivity.
Qed.

(** Rows keep the order of arrival: of two valid requests handled one
    after the other, with no call failing, both are answered 200;
    each run ends with its one append, of the row built at the time
    that append is issued, the first before the second; and the
    configured sheet ends with the row of the first followed by the
    row of the second. *)
Theorem rows_in_arrival_order (env : Env) (depth : nat) (first second : JsValue)
    (w : World) :
  loggable depth first ->
  loggable depth second ->
  valid_payload first ->
  valid_payload second ->
  plain_fields (prop first "data") ->
  plain_fields (prop second "data") ->
  no_failure w ->
  sheet_absent_or_nonzero env w ->
  let w1 := snd (webhook env depth first w) in
  let w2 := snd (webhook env depth second w1) in
  fst (webhook env depth first w) = Ok success_response
  /\ fst (webhook env depth second w1) = Ok success_response
  /\ exists t1 t2 cs1 cs2,
      let row1 := row_of t1 (prop first "data") in
      let row2 := row_of t2 (prop second "data") in
      calls w1 = (calls w ++ cs1 ++ [mkCall t1 (append_request env row1) None])%list
      /\ calls w2 = (calls w1 ++ cs2 ++ [mkCall t2 (append_request env row2) None])%list
      /\ Forall (fun c => is_append (request c) = false) cs1
      /\ Forall (fun c => is_append (request c) = false) cs2
      /\ clock w <= t1 <= t2
      /\ sheet_rows (SHEET_NAME env) (sheets w2)
         = Some (rows_before env w
                   ++ [map (entered "USER_ENTERED") row1;
                       map (entered "USER_ENTERED") row2])%list.
Proof.
  intros Hl1 Hl2 Hv1 Hv2 Hp1 Hp2 Hno Hok. cbv zeta.
  destruct (valid_payload_shape first Hv1) as (_ & _ & Hd1 & _).
  destruct (valid_payload_shape second Hv2) as (_ & _ & Hd2 & _).
  rewrite (webhook_valid env depth first w Hl1 Hv1).
  destruct (addToCalendar_succeeds_full env (prop first "data")
              (logged w (log_incoming first)) Hno Hok (truthy_not_nullish _ Hd1) Hp1)
    as (u1 & w1 & t1 & cs1 & Hrun1 & Hno1 & Hok1 & Hclk1 & Hc1 & Hcs1 & _ & Hrows1).
  rewrite Hrun1. cbn [fst snd]. split; [reflexivity|].
  rewrite (webhook_valid env depth second w1 Hl2 Hv2).
  destruct (addToCalendar_succeeds_full env (prop second "data")
              (logged w1 (log_incoming second)) Hno1 Hok1 (truthy_not_nullish _ Hd2)
              Hp2)
    as (u2 & w2 & t2 & cs2 & Hrun2 & _ & _ & Hclk2 & Hc2 & Hcs2 & _ & Hrows2).
  rewrite Hrun2. cbn [fst snd]. split; [reflexivity|].
  exists t1, t2, cs1, cs2.
  split; [exact Hc1|]. split; [exact Hc2|]. split; [exact Hcs1|]. split; [exact Hcs2|].
  split; [cbn [clock logged] in Hclk1, Hclk2; lia|].
  rewrite Hrows2. unfold rows_before at 1. cbn [sheets logged]. rewrite Hrows1.
  rewrite <- app_assoc. reflexivity.
Qed.

Lemma rows_in_arrival_order_witness :
  let w := world_with [mkSheet 5 "Calendar" [header_cells]] [slow; slow; slow; slow] in
  let w1 := snd (webhook default_env sample_depth jane w) in
  let w2 := snd (webhook default_env sample_depth falsy_optionals w1) in
  (loggable sample_depth jane /\ loggable sample_depth falsy_optionals
   /\ valid_payload jane /\ valid_payload falsy_optionals
   /\ plain_fields (prop jane "data") /\ plain_fields (prop falsy_optionals "data")
   /\ no_failure w /\ sheet_absent_or_nonzero default_env w)
  /\ exists t1 t2,
      (t1 = 1762128000120 /\ t2 = 1762128000360)
      /\ sheet_rows "Calendar" (sheets w2)
         = Some [header_cells;
                 map (entered "USER_ENTERED") (row_of t1 (prop jane "data"));
                 map (entered "USER_ENTERED")
                   (row_of t2 (prop falsy_optionals "data"))].
Proof.
  cbv zeta.
  assert (Hl1 : loggable sample_depth jane) by (vm_compute; lia).
  assert (Hl2 : loggable sample_depth falsy_optionals) by (vm_compute; lia).
  assert (Hv1 : valid_payload jane) by (repeat split).
  assert (Hv2 : valid_payload falsy_optionals) by (repeat split).
  assert (Hp1 : plain_fields (prop jane "data")).
  { split; [reflexivity|]. split; [reflexivity|]. intros k Hk H.
    destruct Hk as [<-|[<-|[<-|[]]]]; vm_compute in H; discriminate H. }
  assert (Hp2 : plain_fields (prop falsy_optionals "data")).
  { split; [reflexivity|]. split; [reflexivity|]. intros k Hk H.
    destruct Hk as [<-|[<-|[<-|[]]]]; vm_compute in H; discriminate H. }
  assert (Hno : no_failure (world_with [mkSheet 5 "Calendar" [header_cells]]
                              [slow; slow; slow; slow])) by (repeat constructor).
  assert (Hok : sheet_absent_or_nonzero default_env
                  (world_with [mkSheet 5 "Calendar" [header_cells]]
                     [slow; slow; slow; slow])).
  { intros s Hs. injection Hs as <-. discriminate. }
  split;
    [exact (conj Hl1 (conj Hl2 (conj Hv1 (conj Hv2 (conj Hp1 (conj Hp2
              (conj Hno Hok)))))))|].
  destruct (rows_in_arrival_order default_env sample_depth jane falsy_optionals _
              Hl1 Hl2 Hv1 Hv2 Hp1 Hp2 Hno Hok)
    as (_ & _ & t1 & t2 & cs1 & cs2 & Hc1 & Hc2 & _ & _ & _ & Hrows).
  cbv zeta in Hc1, Hc2, Hrows.
  pose proof (last_call _ _ _
                (mkCall 1762128000120
                   (append_request default_env
                      (row_of 1762128000120 (prop jane "data"))) None)
                [mkCall 1762128000000 (get_request default_env) None] Hc1) as L1.
  pose proof (last_call _ _ _
                (mkCall 1762128000360
                   (append_request default_env
                      (row_of 1762128000360 (prop falsy_optionals "data"))) None)
                [mkCall 1762128000000 (get_request default_env) None;
                 mkCall 1762128000120
                   (append_request default_env
                      (row_of 1762128000120 (prop jane "data"))) None;
                 mkCall 1762128000240 (get_request default_env) None] Hc2) as L2.
  apply (f_equal issued_at) in L1. apply (f_equal issued_at) in L2.
  cbn [issued_at] in L1, L2.
  exists t1, t2. split; [split; assumption | exact Hrows].
Defined.



(** ** The provisioner is skipped *)

Lemma found_sheet_is_not_provisioned_witness :
  let w := world_with [mkSheet 0 "Sheet1" []; mkSheet 5 "Calendar" [header_cells]]
             [slow; failing invalid_credentials] in
  (find (Service.has_title "Calendar") (sheets w) = Some (mkSheet 5 "Calendar" [header_cells])
   /\ 5 <> 0)
  /\ Forall (fun c => is_addSheet (request c) = false /\ is_update (request c) = false)
       (new_calls w (snd (addToCalendar default_env (prop jane "data") w))).
Proof.
  cbv zeta.
  assert (Hz : sheetId (mkSheet 5 "Calendar" [header_cells]) <> 0) by discriminate.
  split; [split; [reflexivity | exact Hz]|].
  exact (found_sheet_is_not_provisioned default_env (prop jane "data")
           (world_with [mkSheet 0 "Sheet1" []; mkSheet 5 "Calendar" [header_cells]]
              [slow; failing invalid_credentials])
           (mkSheet 5 "Calendar" [header_cells]) eq_refl Hz).
Defined.

(** ** The default date *)

Module DefaultDate.
Import JsDate.

Lemma pad_length (width : nat) (n : Z) : String.length (pad width n) = width.
Proof.
  revert n. induction width as [|w IH]; intros n; [reflexivity|].
  cbn [pad]. rewrite length_append, IH. cbn [String.length]. lia.
Qed.

Lemma append_inj_length (a a' b b' : string) :
  String.length a = String.length a' -> a ++ b = a' ++ b' -> a = a' /\ b = b'.
Proof.
  revert a'. induction a as [|x a IH]; intros [|y a'] Hl H; simpl in *; try discriminate.
  - auto.
  - injection H as -> H. injection Hl as Hl. destruct (IH a' Hl H) as [-> ->]. auto.
Qed.

Lemma digit_inj (a b : Z) : 0 <= a < 10 -> 0 <= b < 10 -> digit a = digit b -> a = b.
Proof.
  intros Ha Hb H. unfold digit in H.
  apply (f_equal nat_of_ascii) in H.
  rewrite !nat_ascii_embedding in H by lia. lia.
Qed.

Lemma pad_inj (width : nat) (a b : Z) :
  0 <= a < 10 ^ Z.of_nat width -> 0 <= b < 10 ^ Z.of_nat width ->
  pad width a = pad width b -> a = b.
Proof.
  revert a b. induction width as [|w IH]; intros a b Ha Hb H.
  - simpl in Ha, Hb. lia.
  - cbn [pad] in H. rewrite Nat2Z.inj_succ, Z.pow_succ_r in Ha, Hb by lia.
    apply append_inj_length in H; [|rewrite !pad_length; reflexivity].
    destruct H as [H1 H2]. injection H2 as H2.
    apply digit_inj in H2; try (apply Z.mod_pos_bound; lia).
    apply IH in H1; try (split; [apply Z.div_pos; lia | apply Z.div_lt_upper_bound; lia]).
    rewrite (Z.div_mod a 10), (Z.div_mod b 10) by lia. congruence.
Qed.

(** Year, month and day of a time value within the years 0000 to 9999
    fit their fields. *)
Lemma date_numbers (t : Z) :
  -62167219200000 <= t < 253402300800000 ->
  0 <= YearFromTime t < 10 ^ Z.of_nat 4
  /\ 0 <= MonthFromTime t + 1 < 10 ^ Z.of_nat 2
  /\ 0 <= DateFromTime t < 10 ^ Z.of_nat 2.
Proof.
  intros Ht. apply JsDateFacts.year_in_range in Ht.
  destruct (JsDateFacts.date_of_time t) as (_ & Hm & Hd & _ & Hle & _).
  pose proof (JsDateFacts.day_of_month_bound _ _ _ Hm (JsDateFacts.InLeapYear_bound _) Hle).
  change (10 ^ Z.of_nat 4) with 10000. change (10 ^ Z.of_nat 2) with 100. lia.
Qed.

Lemma after_hyphen (a b : string) : "-" ++ a = "-" ++ b -> a = b.
Proof. intros H. injection H as H. exact H. Qed.

(** Two clocks within the years 0000 to 9999 give the same default
    date exactly when they fall on the same UTC day. *)
Theorem today_identifies_the_day (t1 t2 : Z) :
  -62167219200000 <= t1 < 253402300800000 ->
  -62167219200000 <= t2 < 253402300800000 ->
  today t1 = today t2 <-> Day t1 = Day t2.
Proof.
  intros H1 H2. split.
  - intros H.
    rewrite !JsDateFacts.today_four_digit_year in H by (apply JsDateFacts.year_in_range; assumption).
    destruct (date_numbers t1 H1) as (Y1 & M1 & D1).
    destruct (date_numbers t2 H2) as (Y2 & M2 & D2).
    apply append_inj_length in H; [|rewrite !pad_length; reflexivity].
    destruct H as [Hy H]. apply after_hyphen in H.
    apply append_inj_length in H; [|rewrite !pad_length; reflexivity].
    destruct H as [Hm Hd]. apply after_hyphen in Hd.
    apply pad_inj in Hy; [|assumption..].
    apply pad_inj in Hm; [|assumption..].
    apply pad_inj in Hd; [|assumption..].
    destruct (JsDateFacts.date_of_time t1) as (_ & _ & _ & E1 & _).
    destruct (JsDateFacts.date_of_time t2) as (_ & _ & _ & E2 & _).
    rewrite E1, E2, Hy, Hm, Hd. reflexivity.
  - intros H. rewrite !JsDateFacts.today_date_string.
    unfold date_string, YearFromTime, MonthFromTime, DateFromTime. rewrite H.
    reflexivity.
Qed.

(** The default date has the ten characters of [YYYY-MM-DD] when the
    clock is within the years 0000 to 9999; outside, the year takes a
    sign and six digits and the date thirteen characters. *)
Theorem today_length (t : Z) :
  (-62167219200000 <= t < 253402300800000 ->
   String.length (today t) = 10%nat
   /\ today t = pad 4 (YearFromTime t) ++ "-" ++ pad 2 (MonthFromTime t + 1) ++ "-"
                ++ pad 2 (DateFromTime t))
  /\ (~ -62167219200000 <= t < 253402300800000 ->
      String.length (today t) = 13%nat).
Proof.
  split.
  - intros Ht. apply JsDateFacts.year_in_range in Ht.
    rewrite (JsDateFacts.today_four_digit_year t Ht). split; [|reflexivity].
    rewrite !length_append, !pad_length. reflexivity.
  - intros Ht. rewrite JsDateFacts.today_date_string. unfold date_string, year_string.
    destruct (Z.leb_spec 0 (YearFromTime t)); destruct (Z.leb_spec (YearFromTime t) 9999);
      cbn [andb]; try (elim Ht; apply JsDateFacts.year_in_range; lia);
      rewrite !length_append, !pad_length; destruct (YearFromTime t <? 0); reflexivity.
Qed.

Lemma today_identifies_the_day_witness :
  (-62167219200000 <= 1762128000000 < 253402300800000
   /\ -62167219200000 <= 1762214399999 < 253402300800000)
  /\ today 1762128000000 = today 1762214399999.
Proof.
  split; [lia|].
  apply (today_identifies_the_day 1762128000000 1762214399999); [lia | lia |].
  reflexivity.
Defined.

(** The default date is the UTC date of the clock: the year is the
    one whose first day is the last not after the day of the clock,
    and the month and the day of the month are those the table of
    month lengths gives, leap years included. *)
Theorem today_is_the_utc_date (t : Z) :
  let y := YearFromTime t in
  let m := MonthFromTime t + 1 in
  let d := DateFromTime t in
  today t = year_string y ++ "-" ++ pad 2 m ++ "-" ++ pad 2 d
  /\ msPerDay * Day t <= t < msPerDay * (Day t + 1)
  /\ DayFromYear y <= Day t < DayFromYear (y + 1)
  /\ 1 <= m <= 12
  /\ 1 <= d <= 31
  /\ Day t = DayFromYear y + DaysBeforeMonth m (InLeapYear y) + d - 1
  /\ DaysBeforeMonth m (InLeapYear y) + d <= DaysBeforeMonth (m + 1) (InLeapYear y).
Proof.
  cbv zeta.
  destruct (JsDateFacts.date_of_time t) as (Hy & Hm & Hd & E & Hle & Ht).
  pose proof (JsDateFacts.day_of_month_bound _ _ _ Hm (JsDateFacts.InLeapYear_bound _) Hle).
  split; [apply JsDateFacts.today_date_string|].
  repeat split; try tauto; lia.
Qed.

End DefaultDate.

(** ** What is stored and what is logged *)

Lemma js_or_truthy_value (a b : JsValue) : truthy a = true -> js_or a b = a.
Proof. unfold js_or. intros ->. reflexivity. Qed.

(** Fields are passed through as they come: the one append of a
    request answered 200, its last call, sends to [A:E] of the
    configured sheet, with [USER_ENTERED] and [INSERT_ROWS], one row
    of exactly five columns, in which the name and the email are the
    values supplied and a truthy date, time or description is the
    value supplied, whatever its type or form; the bridge parses and
    checks nothing.  What the service makes of the values is its
    own. *)
Theorem supplied_fields_pass_through (env : Env) (depth : nat) (req_body : JsValue)
    (w : World) (r : Response) :
  fst (webhook env depth req_body w) = Ok r ->
  status r = 200 ->
  let data := prop req_body "data" in
  let w' := snd (webhook env depth req_body w) in
  exists t cs row,
    calls w'
    = (calls w ++ cs
         ++ [mkCall t (ValuesAppend (SPREADSHEET_ID env) (SHEET_NAME env ++ "!A:E")
                         "USER_ENTERED" "INSERT_ROWS" [row]) None])%list
    /\ Forall (fun c => is_append (request c) = false) cs
    /\ List.length row = 5%nat
    /\ nth_error row 2 = Some (prop data "name")
    /\ nth_error row 3 = Some (prop data "email")
    /\ (truthy (prop data "date") = true -> nth_error row 0 = Some (prop data "date"))
    /\ (truthy (prop data "time") = true -> nth_error row 1 = Some (prop data "time"))
    /\ (truthy (prop data "description") = true ->
        nth_error row 4 = Some (prop data "description")).
Proof.
  intros Hr Hs data w'.
  destruct (webhook_success_inv env depth req_body w r Hr Hs) as (_ & _ & u & Hrun).
  destruct (addToCalendar_ok_inv env _ _ _ _ Hrun)
    as (_ & _ & t & cs & Hc & _ & Hcs & _ & _).
  exists t, cs, (row_of t data). fold data in Hc. fold w' in Hc.
  split; [exact Hc|]. split; [exact Hcs|].
  unfold row_of. cbn [nth_error List.length].
  repeat split; intros H; rewrite (js_or_truthy_value _ _ H); reflexivity.
Qed.

Lemma supplied_fields_pass_through_witness :
  let w := world_with [mkSheet 5 "Calendar" [header_cells]] [] in
  (fst (webhook default_env sample_depth dated w) = Ok success_response
   /\ status success_response = 200)
  /\ exists t cs row,
      calls (snd (webhook default_env sample_depth dated w))
      = (cs ++ [mkCall t (append_request default_env row) None])%list
      /\ nth_error row 0 = Some (JStr "next Tuesday")
      /\ nth_error row 1 = Some (JStr "09:30")
      /\ nth_error row 2 = Some (JStr "Jane Doe")
      /\ nth_error row 3 = Some (JStr "not an address")
      /\ nth_error row 4 = Some (JNum (S754_finite false 7 0)).
Proof.
  cbv zeta. split; [split; reflexivity|].
  destruct (supplied_fields_pass_through default_env sample_depth dated
              (world_with [mkSheet 5 "Calendar" [header_cells]] [])
              success_response eq_refl eq_refl)
    as (t & cs & row & Hcalls & _ & _ & Hname & Hemail & Hdate & Htime & Hdesc).
  exists t, cs, row. split; [exact Hcalls|].
  split; [exact (Hdate eq_refl)|]. split; [exact (Htime eq_refl)|].
  split; [exact Hname|]. split; [exact Hemail | exact (Hdesc eq_refl)].
Defined.

(** Every answer 500 is logged: the last line on the console is the
    [console.error] of the error caught, and [details] in the answer
    is the message of that error and nothing more of it. *)
Theorem server_error_is_logged (env : Env) (depth : nat) (req_body : JsValue)
    (w : World) (r : Response) :
  fst (webhook env depth req_body w) = Ok r ->
  status r = 500 ->
  exists e lines,
    console (snd (webhook env depth req_body w))
    = (lines ++ [error_stack "Webhook Error:" e])%list
    /\ r = {| status := 500;
              body := JObj [("error", JStr "Internal server error");
                            ("details", JStr (message e))] |}.
Proof.
  intros Hr Hs. pose proof (webhook_answered env depth req_body w r Hr) as Hl.
  destruct (nullish req_body) eqn:Hb.
  - rewrite (webhook_nullish env depth req_body w Hb) in Hr |- *. cbv zeta in Hr |- *.
    injection Hr as <-. eexists. eexists. split; reflexivity.
  - rewrite (webhook_run env depth req_body w Hl Hb) in Hr |- *. cbv zeta in Hr |- *.
    destruct (negb (truthy (prop req_body "event"))
              || negb (truthy (prop req_body "data")));
      [injection Hr as <-; discriminate Hs|].
    destruct (negb (strict_eq_string (prop req_body "event") "schedule_appointment"));
      [injection Hr as <-; discriminate Hs|].
    destruct (negb (truthy (prop (prop req_body "data") "name"))
              || negb (truthy (prop (prop req_body "data") "email")));
      [injection Hr as <-; discriminate Hs|].
    destruct (addToCalendar env _ _) as [[u|e] w1].
    + injection Hr as <-. discriminate Hs.
    + injection Hr as <-. exists e, (console w1). split; reflexivity.
Qed.

Lemma server_error_is_logged_witness :
  let w := world_with [mkSheet 0 "Sheet1" []] [failing invalid_credentials] in
  (fst (webhook default_env sample_depth jane w)
   = Ok (failure_response
           "Failed to update spreadsheet: invalid_grant: Invalid JWT Signature.")
   /\ 500 = 500)
  /\ exists e lines,
      console (snd (webhook default_env sample_depth jane w))
      = (lines ++ [error_stack "Webhook Error:" e])%list.
Proof.
  cbv zeta. split; [split; reflexivity|].
  destruct (server_error_is_logged default_env sample_depth jane
              (world_with [mkSheet 0 "Sheet1" []] [failing invalid_credentials])
              (failure_response
                 "Failed to update spreadsheet: invalid_grant: Invalid JWT Signature.")
              eq_refl eq_refl)
    as (e & lines & Hc & _).
  exists e, lines. exact Hc.
Defined.
